(** * Salesforce Revoke Session action: a shallow embedding

    The action has three lifecycle handlers, [invoke], [error] and [halt].
    Two versions of the script are embedded side by side:
    - [Dist]   : the bundled script, dist/index.js;
    - [Script] : the module script that resolves its base URL and its
                 authorization header through @sgnl-actions/utils.

    JavaScript strings are represented by their (generalised) UTF-8 bytes,
    numbers that the script only counts or prints are [nat], objects used as
    dictionaries ([context.secrets], [context.environment]) are [gmap]s, and
    the effects of an [async] handler (console output, [fetch], timers,
    exceptions) are made explicit in a small state-and-exception monad. *)

From Stdlib Require Import Ascii String.
From stdpp Require Import base strings list gmap pretty.

(** ** JavaScript values *)

(** An exception value: [name] distinguishes [Error] from [TypeError],
    [URIError], ...; the handlers only ever read [message]. *)
Record JsError := mkJsError { name : string; message : string }.

(** [new Error(msg)] *)
Definition Error (msg : string) : JsError := {| name := "Error"; message := msg |}.

Inductive Result (A : Type) : Type :=
| Return (a : A)
| Throw (e : JsError).
Arguments Return {A} a.
Arguments Throw {A} e.

(** A property that may be [undefined] is an [option]; a template literal
    prints [undefined] as the nine letters. *)
Definition str (v : option string) : string := default "undefined" v.

(** JavaScript truthiness of a possibly-undefined string: [undefined] and
    the empty string are falsy.  [truthy v] is [Some s] exactly when the
    value is the non-empty string [s]. *)
Definition truthy (v : option string) : option string :=
  match v with
  | Some (String _ _ as s) => Some s
  | _ => None
  end.

(** [String(n)] for a non-negative integer. *)
Definition numStr (n : nat) : string := pretty n.

(** ** String.prototype.includes *)

Fixpoint includes (s needle : string) : bool :=
  String.prefix needle s ||
  match s with
  | EmptyString => false
  | String _ s' => includes s' needle
  end.

(** ** encodeURIComponent *)

Definition hexDigit (n : nat) : ascii :=
  match String.get n "0123456789ABCDEF" with
  | Some c => c
  | None => "0"%char
  end.

Definition percentEncodeByte (c : ascii) : string :=
  let n := nat_of_ascii c in
  String "%" (String (hexDigit (n / 16)) (String (hexDigit (n mod 16)) EmptyString)).

Definition between (lo hi n : nat) : bool := Nat.leb lo n && Nat.leb n hi.

(** The characters encodeURIComponent leaves alone:
    A-Z a-z 0-9 - _ . ! ~ * ' ( ) *)
Definition isUnreserved (c : ascii) : bool :=
  let n := nat_of_ascii c in
  between 48 57 n || between 65 90 n || between 97 122 n ||
  existsb (Ascii.eqb c) (list_ascii_of_string "-_.!~*'()").

Fixpoint encodeBytes (s : string) : string :=
  match s with
  | EmptyString => EmptyString
  | String c s' =>
      (if isUnreserved c then String c EmptyString else percentEncodeByte c)
      +:+ encodeBytes s'
  end.

(** In the byte representation a surrogate code unit that is not part of a
    pair shows up as the three-byte sequence ED A0..BF xx. *)
Fixpoint hasLoneSurrogate (s : string) : bool :=
  match s with
  | String a (String b _ as rest) =>
      (Nat.eqb (nat_of_ascii a) 237 && between 160 191 (nat_of_ascii b))
      || hasLoneSurrogate rest
  | _ => false
  end.

(** [encodeURIComponent(s)]: throws URIError on a lone surrogate, otherwise
    percent-encodes every byte that is not unreserved. *)
Definition encodeURIComponent (s : string) : Result string :=
  if hasLoneSurrogate s
  then Throw {| name := "URIError"; message := "URI malformed" |}
  else Return (encodeBytes s).

(** ** Salesforce responses *)

(** One record of a query result; the script reads only [Id]. *)
Record SObject := mkSObject { Id : string }.

(** The parsed body of a query response; [records] may be absent. *)
Record QueryBody := mkQueryBody { records : option (list SObject) }.

Module Response.
(** The part of a fetch [Response] the script looks at.  [ok] is kept as
    a field of its own, as the script reads both [ok] and [status];
    [json] is what [await response.json()] settles to. *)
Record t := mk {
  ok : bool;
  status : nat;
  statusText : string;
  json : Result QueryBody
}.
End Response.

(** What [await fetch(...)] settles to: a response, or a rejection
    (a transport-level fault). *)
Inductive FetchOutcome : Type :=
| Resolved (r : Response.t)
| Rejected (e : JsError).

(** ** Execution context *)

Record Context := mkContext {
  secrets : gmap string string;
  environment : gmap string string
}.

(** ** Observable effects *)

Inductive event : Type :=
| console_log (msg : string)
| console_warn (msg : string)
| console_error (msg : string)
| fetch_call (url method : string) (headers : list (string * string))
| setTimeout (ms : nat).

(** The URLs and methods of the HTTP calls of a trace, in order. *)
Fixpoint httpCalls (tr : list event) : list (string * string) :=
  match tr with
  | [] => []
  | fetch_call url method _ :: tr' => (method, url) :: httpCalls tr'
  | _ :: tr' => httpCalls tr'
  end.

(** The messages passed to [console.warn], in order. *)
Fixpoint warnings (tr : list event) : list string :=
  match tr with
  | [] => []
  | console_warn msg :: tr' => msg :: warnings tr'
  | _ :: tr' => warnings tr'
  end.

(** The state of a run: how many [fetch] calls were made so far, and
    everything the handler did that is visible from outside, oldest first. *)
Record State := mkState { fetches : nat; trace : list event }.

Definition init : State := {| fetches := 0; trace := [] |}.

(** A handler body: runs from a state, ends in a value or an exception. *)
Definition M (A : Type) : Type := State -> Result A * State.

Definition ret {A} (a : A) : M A := fun st => (Return a, st).

Definition throw {A} (e : JsError) : M A := fun st => (Throw e, st).

Definition lift {A} (r : Result A) : M A := fun st => (r, st).

Definition bind {A B} (m : M A) (f : A -> M B) : M B :=
  fun st =>
    match m st with
    | (Return a, st') => f a st'
    | (Throw e, st') => (Throw e, st')
    end.

(** [try { body } catch (e) { handler e }] *)
Definition try_catch {A} (body : M A) (handler : JsError -> M A) : M A :=
  fun st =>
    match body st with
    | (Return a, st') => (Return a, st')
    | (Throw e, st') => handler e st'
    end.

Definition emit (e : event) : M unit :=
  fun st => (Return tt, {| fetches := fetches st; trace := trace st ++ [e] |}).

Notation "x <- m ;; k" := (bind m (fun x => k))
  (at level 63, m at next level, right associativity).
Notation "m ;;; k" := (bind m (fun _ => k))
  (at level 63, right associativity).

(** [await fetch(url, { method, headers })]: the call is recorded, and it
    settles to what the network answers to this, the [fetches]-th, call. *)
Definition fetch (network : nat -> FetchOutcome)
    (url method : string) (headers : list (string * string)) : M Response.t :=
  fun st =>
    let st' := {| fetches := S (fetches st);
                  trace := trace st ++ [fetch_call url method headers] |} in
    match network (fetches st) with
    | Resolved r => (Return r, st')
    | Rejected e => (Throw e, st')
    end.

(** [new Date().toISOString()], read off a clock. *)
Definition toISOString (clock : State -> string) : M string :=
  fun st => (Return (clock st), st).

(** * dist/index.js *)

Module Dist.

Module InvokeParams.
Record t := mk { username : option string; apiVersion : option string }.
End InvokeParams.

Module InvokeResult.
Record t := mk {
  status : string;
  username : string;
  userId : string;
  sessionsRevoked : nat;
  processed_at : string
}.
End InvokeResult.

Module ErrorParams.
Record t := mk { error : JsError; username : option string }.
End ErrorParams.

Module ErrorResult.
Record t := mk { status : string }.
End ErrorResult.

Module HaltParams.
Record t := mk { reason : option string; username : option string }.
End HaltParams.

Module HaltResult.
Record t := mk {
  status : string;
  username : string;
  reason : option string;
  halted_at : string
}.
End HaltResult.

Section Handlers.

(** The world outside the script: what the n-th [fetch] of a run settles
    to, the URL parser of the platform ([new URL(endpoint, base).toString()],
    which throws a TypeError on a base it cannot parse), and the clock. *)
Variable network : nat -> FetchOutcome.
Variable URL_toString : string -> string -> Result string.
Variable clock : State -> string.

Definition callSalesforceAPI (endpoint method instanceUrl accessToken : string)
    : M Response.t :=
  url <- lift (URL_toString endpoint instanceUrl) ;;
  fetch network url method
    [("Authorization", "Bearer " +:+ accessToken);
     ("Accept", "application/json");
     ("Content-Type", "application/json")].

(** Step 3, the [for (const session of sessions)] loop; the accumulator
    is the local [sessionsRevoked]. *)
Fixpoint revokeSessions (apiVersion instanceUrl accessToken : string)
    (sessions : list SObject) (sessionsRevoked : nat) : M nat :=
  match sessions with
  | [] => ret sessionsRevoked
  | session :: rest =>
      let deleteEndpoint :=
        "/services/data/" +:+ apiVersion +:+ "/sobjects/AuthSession/" +:+ Id session in
      sessionsRevoked' <-
        try_catch
          (deleteResponse <- callSalesforceAPI deleteEndpoint "DELETE" instanceUrl accessToken ;;
           if Nat.eqb (Response.status deleteResponse) 204
              || Nat.eqb (Response.status deleteResponse) 404
           then
             emit (console_log ("Successfully revoked session: " +:+ Id session)) ;;;
             ret (S sessionsRevoked)
           else if negb (Response.ok deleteResponse) then
             emit (console_warn ("Failed to revoke session " +:+ Id session +:+ ": "
                      +:+ numStr (Response.status deleteResponse) +:+ " "
                      +:+ Response.statusText deleteResponse)) ;;;
             ret sessionsRevoked
           else
             emit (console_log ("Successfully revoked session: " +:+ Id session)) ;;;
             ret (S sessionsRevoked))
          (fun sessionError =>
             emit (console_warn ("Error revoking session " +:+ Id session +:+ ": "
                      +:+ message sessionError)) ;;;
             ret sessionsRevoked) ;;
      revokeSessions apiVersion instanceUrl accessToken rest sessionsRevoked'
  end.

Definition invoke (params : InvokeParams.t) (context : Context) : M InvokeResult.t :=
  emit (console_log "Starting Salesforce session revocation") ;;;
  match truthy (InvokeParams.username params) with
  | None => throw (Error "username is required")
  | Some username =>
  let apiVersion := default "v61.0" (InvokeParams.apiVersion params) in
  match truthy (secrets context !! "SALESFORCE_ACCESS_TOKEN") with
  | None => throw (Error "SALESFORCE_ACCESS_TOKEN secret is required")
  | Some SALESFORCE_ACCESS_TOKEN =>
  match truthy (environment context !! "SALESFORCE_INSTANCE_URL") with
  | None => throw (Error "SALESFORCE_INSTANCE_URL environment variable is required")
  | Some SALESFORCE_INSTANCE_URL =>
  emit (console_log ("Processing username: " +:+ username)) ;;;
  emit (console_log ("Using API version: " +:+ apiVersion)) ;;;
  try_catch
    ((* Step 1: Query for user ID by username *)
     encodedUsername <- lift (encodeURIComponent username) ;;
     let userQueryEndpoint :=
       "/services/data/" +:+ apiVersion
         +:+ "/query?q=SELECT+Id+FROM+User+WHERE+username+LIKE+'"
         +:+ encodedUsername +:+ "'+ORDER+BY+Id+ASC" in
     emit (console_log "Step 1: Querying for user ID...") ;;;
     userResponse <- callSalesforceAPI userQueryEndpoint "GET"
                       SALESFORCE_INSTANCE_URL SALESFORCE_ACCESS_TOKEN ;;
     if negb (Response.ok userResponse) then
       throw (Error ("Failed to query user: " +:+ numStr (Response.status userResponse)
                       +:+ " " +:+ Response.statusText userResponse))
     else
     userData <- lift (Response.json userResponse) ;;
     match records userData with
     | None | Some [] => throw (Error ("User not found: " +:+ username))
     | Some (first :: _) =>
     let userId := Id first in
     emit (console_log ("Found user ID: " +:+ userId)) ;;;
     (* Step 2: Query for all user's auth sessions *)
     let sessionQueryEndpoint :=
       "/services/data/" +:+ apiVersion
         +:+ "/query?q=SELECT+Id,UsersId+FROM+AuthSession+WHERE+UsersId='"
         +:+ userId +:+ "'+AND+IsCurrent=false+ORDER+BY+Id+ASC" in
     emit (console_log "Step 2: Querying for user sessions...") ;;;
     sessionResponse <- callSalesforceAPI sessionQueryEndpoint "GET"
                          SALESFORCE_INSTANCE_URL SALESFORCE_ACCESS_TOKEN ;;
     if negb (Response.ok sessionResponse) then
       throw (Error ("Failed to query sessions: " +:+ numStr (Response.status sessionResponse)
                       +:+ " " +:+ Response.statusText sessionResponse))
     else
     sessionData <- lift (Response.json sessionResponse) ;;
     let sessions := default [] (records sessionData) in
     emit (console_log ("Found " +:+ numStr (length sessions) +:+ " sessions to revoke")) ;;;
     if Nat.eqb (length sessions) 0 then
       emit (console_log "No sessions found to revoke") ;;;
       processed_at <- toISOString clock ;;
       ret {| InvokeResult.status := "success";
              InvokeResult.username := username;
              InvokeResult.userId := userId;
              InvokeResult.sessionsRevoked := 0;
              InvokeResult.processed_at := processed_at |}
     else
     (* Step 3: Delete each session individually *)
     emit (console_log "Step 3: Revoking sessions...") ;;;
     sessionsRevoked <- revokeSessions apiVersion SALESFORCE_INSTANCE_URL
                          SALESFORCE_ACCESS_TOKEN sessions 0 ;;
     emit (console_log ("Successfully revoked " +:+ numStr sessionsRevoked +:+ " out of "
                          +:+ numStr (length sessions) +:+ " sessions")) ;;;
     processed_at <- toISOString clock ;;
     ret {| InvokeResult.status := "success";
            InvokeResult.username := username;
            InvokeResult.userId := userId;
            InvokeResult.sessionsRevoked := sessionsRevoked;
            InvokeResult.processed_at := processed_at |}
     end)
    (fun error =>
       emit (console_error ("Failed to revoke sessions for user " +:+ username +:+ ": "
                              +:+ message error)) ;;;
       throw error)
  end end end.

Definition error (params : ErrorParams.t) (_context : Context) : M ErrorResult.t :=
  let error := ErrorParams.error params in
  let username := ErrorParams.username params in
  emit (console_error ("Session revocation encountered error for user " +:+ str username
                         +:+ ": " +:+ message error)) ;;;
  (* Check for retryable errors (rate limits, server errors) *)
  if includes (message error) "429" || includes (message error) "502"
     || includes (message error) "503" || includes (message error) "504"
  then
    emit (console_log "Detected retryable error, waiting before retry...") ;;;
    emit (setTimeout 5000) ;;;
    ret {| ErrorResult.status := "retry_requested" |}
  else
  (* Fatal errors - don't retry *)
  if includes (message error) "401" || includes (message error) "403"
     || includes (message error) "User not found"
     || includes (message error) "username is required"
     || includes (message error) "SALESFORCE_ACCESS_TOKEN"
     || includes (message error) "SALESFORCE_INSTANCE_URL"
  then throw error
  else
  (* Default: let framework retry *)
  ret {| ErrorResult.status := "retry_requested" |}.

Definition halt (params : HaltParams.t) (_context : Context) : M HaltResult.t :=
  let reason := HaltParams.reason params in
  let username := HaltParams.username params in
  emit (console_log ("Session revocation is being halted (" +:+ str reason
                       +:+ ") for user: " +:+ str username)) ;;;
  emit (console_log "Halting session revocation process - no cleanup needed") ;;;
  halted_at <- toISOString clock ;;
  ret {| HaltResult.status := "halted";
         HaltResult.username := default "unknown" (truthy username);
         HaltResult.reason := reason;
         HaltResult.halted_at := halted_at |}.

End Handlers.

End Dist.

(** * The module script (resolves base URL and credentials through
      @sgnl-actions/utils) *)

Module Script.

Module InvokeParams.
Record t := mk {
  username : option string;
  delay : option string;
  address : option string
}.
End InvokeParams.

Module InvokeResult.
Record t := mk {
  status : string;
  username : option string;
  userId : string;
  sessionsRevoked : nat;
  processed_at : string;
  address : string
}.
End InvokeResult.

Module ErrorParams.
Record t := mk { error : JsError }.
End ErrorParams.

Module HaltParams.
Record t := mk { reason : option string; username : option string }.
End HaltParams.

Module HaltResult.
Record t := mk {
  status : string;
  username : string;
  reason : option string;
  halted_at : string
}.
End HaltResult.

Section Handlers.

(** The world outside the script.  [getBaseURL] and
    [getAuthorizationHeader] are the two imports from @sgnl-actions/utils:
    each either yields a string or throws; whatever traffic the second
    needs to obtain a token is its own and is not part of this trace. *)
Variable network : nat -> FetchOutcome.
Variable clock : State -> string.
Variable getBaseURL : InvokeParams.t -> Context -> Result string.
Variable getAuthorizationHeader : Context -> Result string.

Definition callSalesforceAPI (endpoint method baseUrl authHeader : string)
    : M Response.t :=
  let url := baseUrl +:+ endpoint in
  fetch network url method
    [("Authorization", authHeader);
     ("Accept", "application/json");
     ("Content-Type", "application/json")].

(** Step 3, the [for (const session of sessions)] loop. *)
Fixpoint revokeSessions (baseUrl authHeader : string)
    (sessions : list SObject) (sessionsRevoked : nat) : M nat :=
  match sessions with
  | [] => ret sessionsRevoked
  | session :: rest =>
      let deleteEndpoint := "/services/data/v61.0/sobjects/AuthSession/" +:+ Id session in
      sessionsRevoked' <-
        try_catch
          (deleteResponse <- callSalesforceAPI deleteEndpoint "DELETE" baseUrl authHeader ;;
           if Nat.eqb (Response.status deleteResponse) 204
              || Nat.eqb (Response.status deleteResponse) 404
           then
             emit (console_log ("Successfully revoked session: " +:+ Id session)) ;;;
             ret (S sessionsRevoked)
           else if negb (Response.ok deleteResponse) then
             emit (console_warn ("Failed to revoke session " +:+ Id session +:+ ": "
                      +:+ numStr (Response.status deleteResponse) +:+ " "
                      +:+ Response.statusText deleteResponse)) ;;;
             ret sessionsRevoked
           else
             emit (console_log ("Successfully revoked session: " +:+ Id session)) ;;;
             ret (S sessionsRevoked))
          (fun sessionError =>
             emit (console_warn ("Error revoking session " +:+ Id session +:+ ": "
                      +:+ message sessionError)) ;;;
             ret sessionsRevoked) ;;
      revokeSessions baseUrl authHeader rest sessionsRevoked'
  end.

Definition invoke (params : InvokeParams.t) (context : Context) : M InvokeResult.t :=
  emit (console_log "Starting Salesforce session revocation") ;;;
  let username := InvokeParams.username params in
  baseUrl <- lift (getBaseURL params context) ;;
  authHeader <- lift (getAuthorizationHeader context) ;;
  emit (console_log ("Processing username: " +:+ str username)) ;;;
  try_catch
    ((* Step 1: Query for user ID by username *)
     encodedUsername <- lift (encodeURIComponent (str username)) ;;
     let userQueryEndpoint :=
       "/services/data/v61.0/query?q=SELECT+Id+FROM+User+WHERE+username+LIKE+'"
         +:+ encodedUsername +:+ "'+ORDER+BY+Id+ASC" in
     emit (console_log "Step 1: Querying for user ID...") ;;;
     userResponse <- callSalesforceAPI userQueryEndpoint "GET" baseUrl authHeader ;;
     if negb (Response.ok userResponse) then
       throw (Error ("Failed to query user: " +:+ numStr (Response.status userResponse)
                       +:+ " " +:+ Response.statusText userResponse))
     else
     userData <- lift (Response.json userResponse) ;;
     match records userData with
     | None | Some [] => throw (Error ("User not found: " +:+ str username))
     | Some (first :: _) =>
     let userId := Id first in
     emit (console_log ("Found user ID: " +:+ userId)) ;;;
     (* Step 2: Query for all user's auth sessions *)
     let sessionQueryEndpoint :=
       "/services/data/v61.0/query?q=SELECT+Id,UsersId+FROM+AuthSession+WHERE+UsersId='"
         +:+ userId +:+ "'+AND+IsCurrent=false+ORDER+BY+Id+ASC" in
     emit (console_log "Step 2: Querying for user sessions...") ;;;
     sessionResponse <- callSalesforceAPI sessionQueryEndpoint "GET" baseUrl authHeader ;;
     if negb (Response.ok sessionResponse) then
       throw (Error ("Failed to query sessions: " +:+ numStr (Response.status sessionResponse)
                       +:+ " " +:+ Response.statusText sessionResponse))
     else
     sessionData <- lift (Response.json sessionResponse) ;;
     let sessions := default [] (records sessionData) in
     emit (console_log ("Found " +:+ numStr (length sessions) +:+ " sessions to revoke")) ;;;
     if Nat.eqb (length sessions) 0 then
       emit (console_log "No sessions found to revoke") ;;;
       processed_at <- toISOString clock ;;
       ret {| InvokeResult.status := "success";
              InvokeResult.username := username;
              InvokeResult.userId := userId;
              InvokeResult.sessionsRevoked := 0;
              InvokeResult.processed_at := processed_at;
              InvokeResult.address := baseUrl |}
     else
     (* Step 3: Delete each session individually *)
     emit (console_log "Step 3: Revoking sessions...") ;;;
     sessionsRevoked <- revokeSessions baseUrl authHeader sessions 0 ;;
     emit (console_log ("Successfully revoked " +:+ numStr sessionsRevoked +:+ " out of "
                          +:+ numStr (length sessions) +:+ " sessions")) ;;;
     processed_at <- toISOString clock ;;
     ret {| InvokeResult.status := "success";
            InvokeResult.username := username;
            InvokeResult.userId := userId;
            InvokeResult.sessionsRevoked := sessionsRevoked;
            InvokeResult.processed_at := processed_at;
            InvokeResult.address := baseUrl |}
     end)
    (fun error =>
       emit (console_error ("Failed to revoke sessions for user " +:+ str username +:+ ": "
                              +:+ message error)) ;;;
       throw error).

(** The error handler of this version re-throws whatever it is given. *)
Definition error (params : ErrorParams.t) (_context : Context) : M unit :=
  let error := ErrorParams.error params in
  throw error.

Definition halt (params : HaltParams.t) (_context : Context) : M HaltResult.t :=
  let reason := HaltParams.reason params in
  let username := HaltParams.username params in
  emit (console_log ("Session revocation is being halted (" +:+ str reason
                       +:+ ") for user: " +:+ str username)) ;;;
  emit (console_log "Halting session revocation process - no cleanup needed") ;;;
  halted_at <- toISOString clock ;;
  ret {| HaltResult.status := "halted";
         HaltResult.username := default "unknown" (truthy username);
         HaltResult.reason := reason;
         HaltResult.halted_at := halted_at |}.

End Handlers.

End Script.

(** * Describing a run *)

(** The answers of the network to [n] consecutive calls, from call [k] on. *)
Definition outcomesFrom (network : nat -> FetchOutcome) (k n : nat) : list FetchOutcome :=
  map network (seq k n).

Definition is204or404 (o : FetchOutcome) : bool :=
  match o with
  | Resolved r => Nat.eqb (Response.status r) 204 || Nat.eqb (Response.status r) 404
  | Rejected _ => false
  end.

(** A response that is neither 204 nor 404 and is not a success either. *)
Definition isOtherFailure (o : FetchOutcome) : bool :=
  match o with
  | Resolved r => negb (is204or404 o) && negb (Response.ok r)
  | Rejected _ => false
  end.

(** The delete outcomes after which the counter goes up. *)
Definition countsAsRevoked (o : FetchOutcome) : bool :=
  match o with
  | Resolved r => is204or404 o || Response.ok r
  | Rejected _ => false
  end.

(** The warning for a session whose delete call did not count. *)
Definition deleteWarning (session : SObject) (o : FetchOutcome) : string :=
  match o with
  | Resolved r =>
      "Failed to revoke session " +:+ Id session +:+ ": "
        +:+ numStr (Response.status r) +:+ " " +:+ Response.statusText r
  | Rejected e =>
      "Error revoking session " +:+ Id session +:+ ": " +:+ message e
  end.

(** What the loop prints for one session, given how its delete call went. *)
Definition deleteReport (session : SObject) (o : FetchOutcome) : event :=
  if countsAsRevoked o
  then console_log ("Successfully revoked session: " +:+ Id session)
  else console_warn (deleteWarning session o).

(** The events of the whole loop: per session one DELETE and one report. *)
Fixpoint loopTrace (url : SObject -> string) (headers : list (string * string))
    (sessions : list SObject) (outcomes : list FetchOutcome) : list event :=
  match sessions, outcomes with
  | session :: sessions', o :: outcomes' =>
      fetch_call (url session) "DELETE" headers :: deleteReport session o
        :: loopTrace url headers sessions' outcomes'
  | _, _ => []
  end.

(** The sessions whose delete call was answered in a way [p] accepts. *)
Definition sessionsWhere (p : FetchOutcome -> bool)
    (sessions : list SObject) (outcomes : list FetchOutcome) : list (SObject * FetchOutcome) :=
  List.filter (fun so => p so.2) (zip sessions outcomes).

(** [existsb (includes m)]: the message contains one of the markers. *)
Definition mentionsAny (m : string) (markers : list string) : bool :=
  existsb (includes m) markers.

Definition retryableMarkers : list string := ["429"; "502"; "503"; "504"].

Definition fatalMarkers : list string :=
  ["401"; "403"; "User not found"; "username is required";
   "SALESFORCE_ACCESS_TOKEN"; "SALESFORCE_INSTANCE_URL"].

(** ** Concrete runs *)

(** A scripted network: the listed outcomes in order, then transport faults. *)
Definition tape (l : list FetchOutcome) (n : nat) : FetchOutcome :=
  nth n l (Rejected {| name := "TypeError"; message := "fetch failed" |}).

(** A successful query response carrying the given records. *)
Definition queryOk (recs : list SObject) : FetchOutcome :=
  Resolved (Response.mk true 200 "OK" (Return {| records := Some recs |})).

(** A successful query response whose body has no [records] field. *)
Definition queryOkNoRecords : FetchOutcome :=
  Resolved (Response.mk true 200 "OK" (Return {| records := None |})).

(** The response to a delete call: no body to speak of. *)
Definition deleted (status : nat) (statusText : string) : FetchOutcome :=
  Resolved (Response.mk (between 200 299 status) status statusText
              (Throw {| name := "SyntaxError"; message := "Unexpected end of JSON input" |})).

(** A stand-in for the URL parser in concrete runs: the base followed by
    the endpoint, as written.  The parser of the platform normalises more
    (it writes each apostrophe of a query as %27, and lets an absolute
    endpoint replace the path of the base); the general statements below
    take the parser as a parameter and do not depend on this stand-in. *)
Definition originPlusPath (endpoint base : string) : Result string :=
  Return (base +:+ endpoint).

Definition fixedClock (st : State) : string := "2024-01-01T00:00:00.000Z".

Definition distContext : Context :=
  {| secrets := {[ "SALESFORCE_ACCESS_TOKEN" := "test-access-token-123456" ]};
     environment := {[ "SALESFORCE_INSTANCE_URL" := "https://mycompany.salesforce.com" ]} |}.

Definition scriptContext : Context :=
  {| secrets := {[ "BEARER_AUTH_TOKEN" := "test-access-token-123456" ]};
     environment := {[ "ADDRESS" := "https://mycompany.salesforce.com" ]} |}.

(** Stand-ins for the two helpers of @sgnl-actions/utils in concrete runs,
    covering the configuration the test suite uses: the address parameter
    or the ADDRESS variable, and a bearer token. *)
Definition bearerGetBaseURL (params : Script.InvokeParams.t) (context : Context)
    : Result string :=
  match truthy (Script.InvokeParams.address params) with
  | Some address => Return address
  | None =>
      match truthy (environment context !! "ADDRESS") with
      | Some address => Return address
      | None => Throw (Error "No URL specified. Provide address parameter or ADDRESS environment variable")
      end
  end.

Definition bearerGetAuthorizationHeader (context : Context) : Result string :=
  match truthy (secrets context !! "BEARER_AUTH_TOKEN") with
  | Some token => Return ("Bearer " +:+ token)
  | None => Throw (Error "No authentication configured")
  end.

(** The scenarios used in the concrete runs below. *)
Definition user123 : SObject := {| Id := "user123" |}.

Definition threeSessions : list SObject :=
  [ {| Id := "session1" |}; {| Id := "session2" |}; {| Id := "session3" |} ].

(** One user, three sessions; the deletes are answered 204, 500 and 404. *)
Definition mixedNetwork : nat -> FetchOutcome :=
  tape [queryOk [user123]; queryOk threeSessions;
        deleted 204 "No Content"; deleted 500 "Internal Server Error";
        deleted 404 "Not Found"].

(** The user query finds nobody. *)
Definition noUserNetwork : nat -> FetchOutcome := tape [queryOk []].

(** One user without sessions. *)
Definition noSessionsNetwork : nat -> FetchOutcome := tape [queryOk [user123]; queryOk []].

(** One user; the session query answers with a body without [records]. *)
Definition noRecordsNetwork : nat -> FetchOutcome :=
  tape [queryOk [user123]; queryOkNoRecords].

Definition distParams (username : option string) : Dist.InvokeParams.t :=
  {| Dist.InvokeParams.username := username; Dist.InvokeParams.apiVersion := None |}.

Definition scriptParams (username : option string) : Script.InvokeParams.t :=
  {| Script.InvokeParams.username := username;
     Script.InvokeParams.delay := None;
     Script.InvokeParams.address := None |}.

Definition emptyContext : Context := {| secrets := ∅; environment := ∅ |}.

(** The fatal markers without "User not found": authentication failures,
    missing username, missing configuration. *)
Definition listedFatalMarkers : list string :=
  ["401"; "403"; "username is required";
   "SALESFORCE_ACCESS_TOKEN"; "SALESFORCE_INSTANCE_URL"].

(** ** More ways to look at a trace *)

(** The delays passed to [setTimeout], in order. *)
Fixpoint timers (tr : list event) : list nat :=
  match tr with
  | [] => []
  | setTimeout ms :: tr' => ms :: timers tr'
  | _ :: tr' => timers tr'
  end.

(** The messages passed to [console.error], in order. *)
Fixpoint errorsLogged (tr : list event) : list string :=
  match tr with
  | [] => []
  | console_error msg :: tr' => msg :: errorsLogged tr'
  | _ :: tr' => errorsLogged tr'
  end.

(** The headers the bundled script puts on a request. *)
Definition distHeaders (accessToken : string) : list (string * string) :=
  [("Authorization", "Bearer " +:+ accessToken);
   ("Accept", "application/json");
   ("Content-Type", "application/json")].

(** The headers the module script puts on a request. *)
Definition scriptHeaders (authHeader : string) : list (string * string) :=
  [("Authorization", authHeader);
   ("Accept", "application/json");
   ("Content-Type", "application/json")].

(** An event is no HTTP call, or a GET or DELETE with the given headers. *)
Definition getOrDeleteWith (headers : list (string * string)) (e : event) : Prop :=
  match e with
  | fetch_call _ method h => h = headers /\ (method = "GET" \/ method = "DELETE")
  | _ => True
  end.

(** ** Percent-decoding, the inverse of [encodeBytes] *)

Definition hexValue (c : ascii) : nat :=
  let n := nat_of_ascii c in
  if between 48 57 n then n - 48
  else if between 65 70 n then n - 55
  else if between 97 102 n then n - 87
  else 0.

Fixpoint percentDecode (s : string) : string :=
  match s with
  | EmptyString => EmptyString
  | String c s' =>
      if Ascii.eqb c "%" then
        match s' with
        | String h (String l s'') =>
            String (ascii_of_nat (hexValue h * 16 + hexValue l)) (percentDecode s'')
        | _ => String c (percentDecode s')
        end
      else String c (percentDecode s')
  end.

(** An answer with the given status and no usable body. *)
Definition answered (status : nat) (statusText : string) : FetchOutcome :=
  deleted status statusText.

(** The response inside such an answer. *)
Definition responseWith (status : nat) (statusText : string) : Response.t :=
  Response.mk (between 200 299 status) status statusText
    (Throw {| name := "SyntaxError"; message := "Unexpected end of JSON input" |}).

(** More scenarios for concrete runs. *)

(** A username whose first character is the lone surrogate U+D800. *)
Definition loneSurrogateName : string :=
  String (ascii_of_nat 237) (String (ascii_of_nat 160) (String (ascii_of_nat 128) "bob")).

(** The user query is refused with a 500, or with a 429. *)
Definition refusedUserNetwork : nat -> FetchOutcome :=
  tape [answered 500 "Internal Server Error"].

Definition rateLimitedNetwork : nat -> FetchOutcome :=
  tape [answered 429 "Too Many Requests"].

(** The session query is refused with a 403. *)
Definition refusedSessionsNetwork : nat -> FetchOutcome :=
  tape [queryOk [user123]; answered 403 "Forbidden"].

(** No network at all: every call is a transport fault. *)
Definition offlineNetwork : nat -> FetchOutcome := tape [].

(** One user, three sessions; the deletes are answered 200, with a
    transport fault, and 204. *)
Definition faultyDeleteNetwork : nat -> FetchOutcome :=
  tape [queryOk [user123]; queryOk threeSessions;
        answered 200 "OK";
        Rejected {| name := "TypeError"; message := "fetch failed" |};
        answered 204 "No Content"].

(* ===================================================================== *)
(** * Properties *)

(** ** Strings *)

Lemma prefix_app (n s : string) : String.prefix n (n +:+ s) = true.
Proof.
  induction n as [|c n IH]; simpl.
  - by destruct s.
  - rewrite IH. by destruct (Ascii.ascii_dec c c).
Qed.

Lemma append_nil_r (s : string) : s +:+ "" = s.
Proof.
  induction s as [|c s IH]; [done|].
  change (String c (s +:+ "") = String c s). by rewrite IH.
Qed.

Lemma includes_unfold (s n : string) :
  includes s n =
  String.prefix n s || match s with EmptyString => false | String _ s' => includes s' n end.
Proof. by destruct s. Qed.

Lemma includes_app (a n b : string) : includes (a +:+ n +:+ b) n = true.
Proof.
  induction a as [|c a IH].
  - change (includes (n +:+ b) n = true).
    by rewrite includes_unfold, prefix_app.
  - change (includes (String c (a +:+ n +:+ b)) n = true).
    rewrite includes_unfold, IH. apply orb_true_r.
Qed.

(** ** Traces *)

Lemma warnings_app (a b : list event) : warnings (a ++ b) = warnings a ++ warnings b.
Proof.
  induction a as [|e a IH]; [done|].
  destruct e; simpl; by rewrite ?IH.
Qed.

Lemma httpCalls_app (a b : list event) : httpCalls (a ++ b) = httpCalls a ++ httpCalls b.
Proof.
  induction a as [|e a IH]; [done|].
  destruct e; simpl; by rewrite ?IH.
Qed.

Lemma outcomesFrom_S network k n :
  outcomesFrom network k (S n) = network k :: outcomesFrom network (S k) n.
Proof. done. Qed.

Lemma warnings_loopTrace url headers sessions : forall outcomes,
  warnings (loopTrace url headers sessions outcomes)
  = map (fun so => deleteWarning so.1 so.2)
      (sessionsWhere (fun o => negb (countsAsRevoked o)) sessions outcomes).
Proof.
  induction sessions as [|session rest IH]; intros [|o outcomes]; try done.
  unfold sessionsWhere in *. simpl. unfold deleteReport.
  destruct (countsAsRevoked o); simpl; by rewrite IH.
Qed.

Lemma httpCalls_loopTrace url headers sessions : forall outcomes,
  length outcomes = length sessions ->
  httpCalls (loopTrace url headers sessions outcomes)
  = map (fun session => ("DELETE", url session)) sessions.
Proof.
  induction sessions as [|session rest IH]; intros [|o outcomes] Hlen; try done.
  simpl. unfold deleteReport.
  destruct (countsAsRevoked o); simpl; rewrite IH; auto.
Qed.

Lemma length_outcomesFrom network k n : length (outcomesFrom network k n) = n.
Proof. unfold outcomesFrom. by rewrite length_map, length_seq. Qed.

Lemma deleteWarning_includes_Id session o :
  includes (deleteWarning session o) (Id session) = true.
Proof. destruct o; apply includes_app. Qed.

(** On answers that are 204, 404 or a failure, only 204 and 404 count. *)
Lemma countsAsRevoked_204_404 o :
  is204or404 o || isOtherFailure o = true -> countsAsRevoked o = is204or404 o.
Proof.
  destruct o as [r|e]; [|done]. unfold isOtherFailure, countsAsRevoked.
  destruct (is204or404 (Resolved r)); [done|].
  destruct (Response.ok r); [discriminate | done].
Qed.

Lemma filter_countsAsRevoked_204_404 outcomes :
  Forall (fun o => is204or404 o || isOtherFailure o = true) outcomes ->
  List.filter countsAsRevoked outcomes = List.filter is204or404 outcomes.
Proof.
  induction 1 as [|o outcomes Ho _ IH]; [done|].
  simpl. by rewrite (countsAsRevoked_204_404 o Ho), IH.
Qed.

Lemma sessionsWhere_204_404 sessions : forall outcomes,
  Forall (fun o => is204or404 o || isOtherFailure o = true) outcomes ->
  sessionsWhere (fun o => negb (countsAsRevoked o)) sessions outcomes
  = sessionsWhere (fun o => negb (is204or404 o)) sessions outcomes.
Proof.
  unfold sessionsWhere.
  induction sessions as [|session rest IH]; intros outcomes Hall; [done|].
  destruct Hall as [|o outcomes Ho Hall]; [done|].
  simpl. by rewrite (countsAsRevoked_204_404 o Ho), IH.
Qed.

Lemma Forall2_map_self {A B} (f : A -> B) (Q : B -> A -> Prop) (l : list A) :
  Forall (fun x => Q (f x) x) l -> Forall2 Q (map f l) l.
Proof. induction 1; simpl; by constructor. Qed.

Lemma length_filter_le {A} (p : A -> bool) (l : list A) :
  length (List.filter p l) <= length l.
Proof. induction l as [|x l IH]; simpl; [lia|]. destruct (p x); simpl; lia. Qed.

(** One turn of the loop, after the delete call has been resolved: use the
    induction hypothesis for the rest, and the tests on the response that
    are in the context. *)
Ltac loop_step IH :=
  rewrite IH; unfold deleteReport; simpl;
  repeat match goal with E : _ = _ :> bool |- _ => rewrite E end; simpl;
  apply (f_equal2 pair);
  [ f_equal; lia
  | apply (f_equal2 mkState); [ lia | by rewrite <- ?app_assoc ] ].

(** Unfolding the plumbing of a handler body. *)
Ltac unfold_monad :=
  unfold Dist.callSalesforceAPI, Script.callSalesforceAPI, fetch,
    bind, try_catch, emit, lift, throw, ret, toISOString.

Section DistLoop.
Variable network : nat -> FetchOutcome.
Variable URL_toString : string -> string -> Result string.
Variables apiVersion instanceUrl accessToken : string.

Let headers : list (string * string) :=
  [("Authorization", "Bearer " +:+ accessToken);
   ("Accept", "application/json");
   ("Content-Type", "application/json")].

Lemma dist_revokeSessions_returns sessions : forall n st,
  exists m st',
    Dist.revokeSessions network URL_toString apiVersion instanceUrl accessToken
      sessions n st = (Return m, st')
    /\ n <= m <= n + length sessions.
Proof.
  induction sessions as [|session rest IH]; intros n st; simpl.
  - exists n, st. split; [done | lia].
  - unfold bind at 1. unfold_monad.
    destruct (URL_toString _ _) as [url|e]; simpl;
      [ destruct (network (fetches st)) as [r|e]; simpl;
          [ destruct (_ || _); simpl; [|destruct (Response.ok r); simpl] | ] | ];
      (edestruct IH as (m & st' & -> & Hm); exists m, st'; split; [done | lia]).
Qed.

Variable href : string -> string.
Hypothesis Hbase : forall endpoint, URL_toString endpoint instanceUrl = Return (href endpoint).

Let deleteUrl (session : SObject) : string :=
  href ("/services/data/" +:+ apiVersion +:+ "/sobjects/AuthSession/" +:+ Id session).

(** The loop, as a function of the answers it gets. *)
Lemma dist_revokeSessions_run sessions : forall n st,
  Dist.revokeSessions network URL_toString apiVersion instanceUrl accessToken
    sessions n st
  = (Return (n + length (List.filter countsAsRevoked
                           (outcomesFrom network (fetches st) (length sessions)))),
     {| fetches := fetches st + length sessions;
        trace := trace st ++ loopTrace deleteUrl headers sessions
                    (outcomesFrom network (fetches st) (length sessions)) |}).
Proof.
  induction sessions as [|session rest IH]; intros n st.
  - simpl. unfold ret. destruct st; simpl. by rewrite !Nat.add_0_r, app_nil_r.
  - cbn [length]. rewrite !outcomesFrom_S. simpl.
    unfold bind at 1. unfold_monad.
    rewrite Hbase. simpl.
    destruct (network (fetches st)) as [r|e]; simpl.
    + destruct (_ || _) eqn:E1; simpl; [|destruct (Response.ok r) eqn:E2; simpl].
      all: loop_step IH.
    + loop_step IH.
Qed.

End DistLoop.

Section DistInvoke.
Variable network : nat -> FetchOutcome.
Variable URL_toString : string -> string -> Result string.
Variable clock : State -> string.
Variable params : Dist.InvokeParams.t.
Variable context : Context.

(** The inputs pass validation, and the instance URL is one the URL
    parser accepts as a base. *)
Variables username accessToken instanceUrl : string.
Hypothesis Husername : truthy (Dist.InvokeParams.username params) = Some username.
Hypothesis Htoken : truthy (secrets context !! "SALESFORCE_ACCESS_TOKEN") = Some accessToken.
Hypothesis Hinstance :
  truthy (environment context !! "SALESFORCE_INSTANCE_URL") = Some instanceUrl.
Hypothesis Hwellformed : hasLoneSurrogate username = false.
Variable href : string -> string.
Hypothesis Hbase : forall endpoint, URL_toString endpoint instanceUrl = Return (href endpoint).

Let apiVersion : string := default "v61.0" (Dist.InvokeParams.apiVersion params).

Let userQueryUrl : string :=
  href ("/services/data/" +:+ apiVersion
          +:+ "/query?q=SELECT+Id+FROM+User+WHERE+username+LIKE+'"
          +:+ encodeBytes username +:+ "'+ORDER+BY+Id+ASC").

(** The user query is answered, successfully. *)
Variable userResponse : Response.t.
Variable userData : QueryBody.
Hypothesis Huser : network 0 = Resolved userResponse.
Hypothesis Huser_ok : Response.ok userResponse = true.
Hypothesis Huser_json : Response.json userResponse = Return userData.

Ltac run_user_query :=
  unfold Dist.invoke;
  rewrite Husername, Htoken, Hinstance;
  unfold encodeURIComponent; rewrite Hwellformed;
  unfold_monad; simpl; rewrite Hbase; simpl;
  rewrite Huser; simpl; rewrite Huser_ok; simpl; rewrite Huser_json; simpl.

Lemma mentions_username prefix : includes (prefix +:+ username) username = true.
Proof.
  rewrite <- (append_nil_r username) at 1. apply (includes_app prefix username "").
Qed.

Lemma dist_invoke_user_lookup_empty :
  default [] (records userData) = [] ->
  exists st',
    Dist.invoke network URL_toString clock params context init
      = (Throw (Error ("User not found: " +:+ username)), st')
    /\ httpCalls (trace st') = [("GET", userQueryUrl)].
Proof.
  intros Hrecords. run_user_query.
  destruct (records userData) as [[|first more]|]; [|done|];
    simpl; eexists; (split; [reflexivity|]); done.
Qed.

(** C3: a user query that succeeds with no records (or with a body that
    has no [records] field at all) makes [invoke] fail with
    "User not found: <username>"; the user query is the only HTTP call of
    the run, so neither the session query nor any delete is issued. *)
Theorem dist_invoke_user_not_found :
  records userData = None \/ records userData = Some [] ->
  exists st',
    Dist.invoke network URL_toString clock params context init
      = (Throw (Error ("User not found: " +:+ username)), st')
    /\ includes (message (Error ("User not found: " +:+ username))) username = true
    /\ httpCalls (trace st') = [("GET", userQueryUrl)].
Proof.
  intros Hrecords.
  destruct dist_invoke_user_lookup_empty as (st' & Hrun & Hcalls).
  { by destruct Hrecords as [-> | ->]. }
  exists st'. split; [done|]. split; [apply mentions_username | done].
Qed.

(** The user query finds a user, and the session query is answered,
    successfully. *)
Variable first : SObject.
Variable more : list SObject.
Hypothesis Huser_records : records userData = Some (first :: more).

Let sessionQueryUrl : string :=
  href ("/services/data/" +:+ apiVersion
          +:+ "/query?q=SELECT+Id,UsersId+FROM+AuthSession+WHERE+UsersId='"
          +:+ Id first +:+ "'+AND+IsCurrent=false+ORDER+BY+Id+ASC").

Variable sessionResponse : Response.t.
Variable sessionData : QueryBody.
Hypothesis Hsession : network 1 = Resolved sessionResponse.
Hypothesis Hsession_ok : Response.ok sessionResponse = true.
Hypothesis Hsession_json : Response.json sessionResponse = Return sessionData.

Ltac run_session_query :=
  run_user_query; rewrite Huser_records; simpl; rewrite Hbase; simpl;
  rewrite Hsession; simpl; rewrite Hsession_ok; simpl; rewrite Hsession_json; simpl.

Lemma dist_invoke_no_sessions :
  default [] (records sessionData) = [] ->
  exists st',
    Dist.invoke network URL_toString clock params context init
      = (Return {| Dist.InvokeResult.status := "success";
                   Dist.InvokeResult.username := username;
                   Dist.InvokeResult.userId := Id first;
                   Dist.InvokeResult.sessionsRevoked := 0;
                   Dist.InvokeResult.processed_at := clock st' |}, st')
    /\ warnings (trace st') = []
    /\ httpCalls (trace st') = [("GET", userQueryUrl); ("GET", sessionQueryUrl)].
Proof.
  intros Hnone. run_session_query. rewrite Hnone. simpl.
  eexists; split; [reflexivity|]. by split.
Qed.

(** C5: when the session query succeeds and lists no session, [invoke]
    returns status "success" with [sessionsRevoked = 0]; the two queries
    are the only HTTP calls of the run, so no delete is issued. *)
Theorem dist_invoke_zero_sessions :
  records sessionData = Some [] ->
  exists st',
    Dist.invoke network URL_toString clock params context init
      = (Return {| Dist.InvokeResult.status := "success";
                   Dist.InvokeResult.username := username;
                   Dist.InvokeResult.userId := Id first;
                   Dist.InvokeResult.sessionsRevoked := 0;
                   Dist.InvokeResult.processed_at := clock st' |}, st')
    /\ httpCalls (trace st') = [("GET", userQueryUrl); ("GET", sessionQueryUrl)].
Proof.
  intros Hempty.
  destruct dist_invoke_no_sessions as (st' & Hrun & _ & Hcalls); [by rewrite Hempty|].
  by exists st'.
Qed.

Let sessions : list SObject := default [] (records sessionData).

Let deleteUrl (session : SObject) : string :=
  href ("/services/data/" +:+ apiVersion +:+ "/sobjects/AuthSession/" +:+ Id session).

(** The whole run, once both queries have succeeded: whatever the delete
    calls are answered, [invoke] returns, and what it returns and does is
    determined by those answers. *)
Lemma dist_invoke_run :
  let outcomes := outcomesFrom network 2 (length sessions) in
  exists st',
    Dist.invoke network URL_toString clock params context init
      = (Return {| Dist.InvokeResult.status := "success";
                   Dist.InvokeResult.username := username;
                   Dist.InvokeResult.userId := Id first;
                   Dist.InvokeResult.sessionsRevoked :=
                     length (List.filter countsAsRevoked outcomes);
                   Dist.InvokeResult.processed_at := clock st' |}, st')
    /\ warnings (trace st')
       = map (fun so => deleteWarning so.1 so.2)
           (sessionsWhere (fun o => negb (countsAsRevoked o)) sessions outcomes)
    /\ httpCalls (trace st')
       = [("GET", userQueryUrl); ("GET", sessionQueryUrl)]
           ++ map (fun session => ("DELETE", deleteUrl session)) sessions.
Proof.
  intros outcomes. subst outcomes.
  destruct (decide (length sessions = 0)) as [Hzero|Hpos].
  - destruct dist_invoke_no_sessions as (st' & Hrun & Hwarn & Hcalls).
    { fold sessions. by destruct sessions. }
    exists st'. rewrite Hrun, Hwarn, Hcalls.
    destruct sessions; [done | discriminate].
  - run_session_query. fold sessions.
    apply Nat.eqb_neq in Hpos. rewrite Hpos. simpl.
    rewrite (dist_revokeSessions_run network URL_toString _ _ _ href Hbase).
    simpl. eexists. split; [reflexivity|]. simpl.
    rewrite !warnings_app, !httpCalls_app, warnings_loopTrace. simpl.
    rewrite httpCalls_loopTrace by (simpl; by rewrite length_outcomesFrom).
    by rewrite !app_nil_r.
Qed.

(** C1: when every delete call is answered 204, 404 or with some other
    non-success status, [invoke] returns status "success",
    [sessionsRevoked] is the number of 204/404 answers, and the warnings
    of the run are, in order, one per other answer, each naming the
    session it is about. *)
Theorem dist_invoke_mixed_outcomes :
  let outcomes := outcomesFrom network 2 (length sessions) in
  Forall (fun o => is204or404 o || isOtherFailure o = true) outcomes ->
  exists st',
    Dist.invoke network URL_toString clock params context init
      = (Return {| Dist.InvokeResult.status := "success";
                   Dist.InvokeResult.username := username;
                   Dist.InvokeResult.userId := Id first;
                   Dist.InvokeResult.sessionsRevoked :=
                     length (List.filter is204or404 outcomes);
                   Dist.InvokeResult.processed_at := clock st' |}, st')
    /\ Forall2 (fun warning so =>
                  warning = deleteWarning so.1 so.2
                  /\ includes warning (Id so.1) = true)
         (warnings (trace st'))
         (sessionsWhere (fun o => negb (is204or404 o)) sessions outcomes).
Proof.
  intros outcomes Hshape.
  destruct dist_invoke_run as (st' & Hrun & Hwarn & _).
  fold outcomes in Hrun, Hwarn.
  rewrite (filter_countsAsRevoked_204_404 _ Hshape) in Hrun.
  rewrite (sessionsWhere_204_404 _ _ Hshape) in Hwarn.
  exists st'. split; [done|]. rewrite Hwarn.
  apply Forall2_map_self, Forall_forall. intros [session o] _.
  split; [done | apply deleteWarning_includes_Id].
Qed.

(** Whatever the delete calls are answered, the count that [invoke]
    returns is at most the number of sessions listed. *)
Lemma dist_invoke_revoked_bounded :
  exists r st',
    Dist.invoke network URL_toString clock params context init = (Return r, st')
    /\ 0 <= Dist.InvokeResult.sessionsRevoked r <= length sessions.
Proof.
  destruct dist_invoke_run as (st' & Hrun & _).
  eexists _, st'. split; [exact Hrun|]. simpl. split; [lia|].
  etrans; [apply length_filter_le|]. by rewrite length_outcomesFrom.
Qed.

End DistInvoke.



Section DistAnyRun.
Variable network : nat -> FetchOutcome.
Variable URL_toString : string -> string -> Result string.
Variable clock : State -> string.

(** C4: for every list of sessions, whatever the network answers to the
    delete calls (a status of any kind, or a transport fault) and whatever
    the URL parser does, the loop ends normally, with a count between 0
    and the number of sessions. *)
Theorem dist_revoke_loop_never_throws
    (apiVersion instanceUrl accessToken : string) (sessions : list SObject) (st : State) :
  exists sessionsRevoked st',
    Dist.revokeSessions network URL_toString apiVersion instanceUrl accessToken
      sessions 0 st = (Return sessionsRevoked, st')
    /\ 0 <= sessionsRevoked <= length sessions.
Proof.
  destruct (dist_revokeSessions_returns network URL_toString apiVersion instanceUrl
              accessToken sessions 0 st) as (m & st' & Hrun & Hm).
  exists m, st'. split; [done | lia].
Qed.

(** C9: a record returned by [invoke] always has status "success". *)
Theorem dist_invoke_status_success params context st r st' :
  Dist.invoke network URL_toString clock params context st = (Return r, st') ->
  Dist.InvokeResult.status r = "success".
Proof.
  unfold Dist.invoke. unfold_monad. simpl.
  destruct (truthy (Dist.InvokeParams.username params)); [|done].
  destruct (truthy (secrets context !! _)); [|done].
  destruct (truthy (environment context !! _)); [|done].
  destruct (encodeURIComponent _); simpl; [|done].
  destruct (URL_toString _ _); simpl; [|done].
  destruct (network _) as [userResponse|]; simpl; [|done].
  destruct (Response.ok userResponse); simpl; [|done].
  destruct (Response.json userResponse) as [userData|]; simpl; [|done].
  destruct (records userData) as [[|first more]|]; simpl; [done| |done].
  destruct (URL_toString _ _); simpl; [|done].
  destruct (network _) as [sessionResponse|]; simpl; [|done].
  destruct (Response.ok sessionResponse); simpl; [|done].
  destruct (Response.json sessionResponse) as [sessionData|]; simpl; [|done].
  destruct (length _ =? 0); simpl; [by intros [= <- _]|].
  destruct (Dist.revokeSessions _ _ _ _ _ _ _ _) as [[n|e] st'']; simpl; [|done].
  by intros [= <- _].
Qed.

(** Missing input or configuration: [invoke] throws at once. *)
Lemma dist_invoke_missing_input params context :
  truthy (Dist.InvokeParams.username params) = None
  \/ truthy (secrets context !! "SALESFORCE_ACCESS_TOKEN") = None
  \/ truthy (environment context !! "SALESFORCE_INSTANCE_URL") = None ->
  exists e st',
    Dist.invoke network URL_toString clock params context init = (Throw e, st')
    /\ In (message e) ["username is required";
                        "SALESFORCE_ACCESS_TOKEN secret is required";
                        "SALESFORCE_INSTANCE_URL environment variable is required"]
    /\ fetches st' = 0 /\ httpCalls (trace st') = [].
Proof.
  intros Hmissing. unfold Dist.invoke. unfold_monad. simpl.
  destruct (truthy (Dist.InvokeParams.username params)) as [username|].
  - destruct (truthy (secrets context !! _)) as [token|].
    + destruct (truthy (environment context !! _)) as [url|].
      * by destruct Hmissing as [|[|]].
      * eexists _, _. split; [reflexivity|]. simpl. tauto.
    + eexists _, _. split; [reflexivity|]. simpl. tauto.
  - eexists _, _. split; [reflexivity|]. simpl. tauto.
Qed.

End DistAnyRun.

Section ScriptLoop.
Variable network : nat -> FetchOutcome.
Variables baseUrl authHeader : string.

Let headers : list (string * string) :=
  [("Authorization", authHeader);
   ("Accept", "application/json");
   ("Content-Type", "application/json")].

Let deleteUrl (session : SObject) : string :=
  baseUrl +:+ "/services/data/v61.0/sobjects/AuthSession/" +:+ Id session.

(** The loop, as a function of the answers it gets. *)
Lemma script_revokeSessions_run sessions : forall n st,
  Script.revokeSessions network baseUrl authHeader sessions n st
  = (Return (n + length (List.filter countsAsRevoked
                           (outcomesFrom network (fetches st) (length sessions)))),
     {| fetches := fetches st + length sessions;
        trace := trace st ++ loopTrace deleteUrl headers sessions
                    (outcomesFrom network (fetches st) (length sessions)) |}).
Proof.
  induction sessions as [|session rest IH]; intros n st.
  - simpl. unfold ret. destruct st; simpl. by rewrite !Nat.add_0_r, app_nil_r.
  - cbn [length]. rewrite !outcomesFrom_S. simpl.
    unfold bind at 1. unfold_monad. simpl.
    destruct (network (fetches st)) as [r|e]; simpl.
    + destruct (_ || _) eqn:E1; simpl; [|destruct (Response.ok r) eqn:E2; simpl].
      all: loop_step IH.
    + loop_step IH.
Qed.

(** The loop of the module script never throws either, and its count is
    within bounds. *)
Lemma script_revoke_loop_never_throws sessions st :
  exists sessionsRevoked st',
    Script.revokeSessions network baseUrl authHeader sessions 0 st
      = (Return sessionsRevoked, st')
    /\ 0 <= sessionsRevoked <= length sessions.
Proof.
  rewrite script_revokeSessions_run. eexists _, _. split; [reflexivity|].
  simpl. split; [lia|].
  etrans; [apply length_filter_le|]. by rewrite length_outcomesFrom.
Qed.

End ScriptLoop.

Section ScriptInvoke.
Variable network : nat -> FetchOutcome.
Variable clock : State -> string.
Variable getBaseURL : Script.InvokeParams.t -> Context -> Result string.
Variable getAuthorizationHeader : Context -> Result string.
Variable params : Script.InvokeParams.t.
Variable context : Context.

(** Base URL and authorization header are resolved. *)
Variables baseUrl authHeader : string.
Hypothesis HbaseUrl : getBaseURL params context = Return baseUrl.
Hypothesis HauthHeader : getAuthorizationHeader context = Return authHeader.

Let username : option string := Script.InvokeParams.username params.
Hypothesis Hwellformed : hasLoneSurrogate (str username) = false.

Let userQueryUrl : string :=
  baseUrl +:+ "/services/data/v61.0/query?q=SELECT+Id+FROM+User+WHERE+username+LIKE+'"
          +:+ encodeBytes (str username) +:+ "'+ORDER+BY+Id+ASC".

Ltac run_resolvers :=
  unfold Script.invoke;
  rewrite HbaseUrl, HauthHeader;
  unfold encodeURIComponent; fold username; rewrite Hwellformed;
  unfold_monad; simpl.

(** The first thing the script sends is the user query, whatever the
    username is: its URL carries [encodeURIComponent(username)] between
    the two quotes of the LIKE pattern. *)
Lemma script_invoke_user_query_url :
  exists rest,
    httpCalls (trace (Script.invoke network clock getBaseURL getAuthorizationHeader
                        params context init).2)
    = ("GET", userQueryUrl) :: rest.
Proof.
  run_resolvers.
  destruct (network 0) as [userResponse|]; simpl; [|by eexists].
  destruct (Response.ok userResponse); simpl; [|by eexists].
  destruct (Response.json userResponse) as [userData|]; simpl; [|by eexists].
  destruct (records userData) as [[|first more]|]; simpl; [by eexists| |by eexists].
  destruct (network 1) as [sessionResponse|]; simpl; [|by eexists].
  destruct (Response.ok sessionResponse); simpl; [|by eexists].
  destruct (Response.json sessionResponse) as [sessionData|]; simpl; [|by eexists].
  destruct (length _ =? 0); simpl; [by eexists|].
  rewrite script_revokeSessions_run. simpl.
  rewrite !httpCalls_app. simpl. by eexists.
Qed.

(** The user query is answered, successfully. *)
Variable userResponse : Response.t.
Variable userData : QueryBody.
Hypothesis Huser : network 0 = Resolved userResponse.
Hypothesis Huser_ok : Response.ok userResponse = true.
Hypothesis Huser_json : Response.json userResponse = Return userData.

Ltac run_user_query :=
  run_resolvers; rewrite Huser; simpl; rewrite Huser_ok; simpl;
  rewrite Huser_json; simpl.

(** The module script, too, fails with "User not found" after a user
    query without records, having sent nothing but that query. *)
Lemma script_invoke_user_not_found :
  records userData = None \/ records userData = Some [] ->
  exists st',
    Script.invoke network clock getBaseURL getAuthorizationHeader params context init
      = (Throw (Error ("User not found: " +:+ str username)), st')
    /\ httpCalls (trace st') = [("GET", userQueryUrl)].
Proof.
  intros Hrecords. run_user_query.
  destruct Hrecords as [-> | ->]; simpl; eexists; (split; [reflexivity|]); done.
Qed.

(** The user query finds a user, and the session query is answered,
    successfully. *)
Variable first : SObject.
Variable more : list SObject.
Hypothesis Huser_records : records userData = Some (first :: more).

Let sessionQueryUrl : string :=
  baseUrl +:+ "/services/data/v61.0/query?q=SELECT+Id,UsersId+FROM+AuthSession+WHERE+UsersId='"
          +:+ Id first +:+ "'+AND+IsCurrent=false+ORDER+BY+Id+ASC".

Variable sessionResponse : Response.t.
Variable sessionData : QueryBody.
Hypothesis Hsession : network 1 = Resolved sessionResponse.
Hypothesis Hsession_ok : Response.ok sessionResponse = true.
Hypothesis Hsession_json : Response.json sessionResponse = Return sessionData.

Ltac run_session_query :=
  run_user_query; rewrite Huser_records; simpl;
  rewrite Hsession; simpl; rewrite Hsession_ok; simpl; rewrite Hsession_json; simpl.

(** No sessions, or no [records] field in the answer: success with a
    count of 0 and no delete call. *)
Lemma script_invoke_no_sessions :
  default [] (records sessionData) = [] ->
  exists st',
    Script.invoke network clock getBaseURL getAuthorizationHeader params context init
      = (Return {| Script.InvokeResult.status := "success";
                   Script.InvokeResult.username := username;
                   Script.InvokeResult.userId := Id first;
                   Script.InvokeResult.sessionsRevoked := 0;
                   Script.InvokeResult.processed_at := clock st';
                   Script.InvokeResult.address := baseUrl |}, st')
    /\ warnings (trace st') = []
    /\ httpCalls (trace st') = [("GET", userQueryUrl); ("GET", sessionQueryUrl)].
Proof.
  intros Hnone. run_session_query. rewrite Hnone. simpl.
  eexists; split; [reflexivity|]. by split.
Qed.

Let sessions : list SObject := default [] (records sessionData).

Let deleteUrl (session : SObject) : string :=
  baseUrl +:+ "/services/data/v61.0/sobjects/AuthSession/" +:+ Id session.

Lemma script_invoke_run :
  let outcomes := outcomesFrom network 2 (length sessions) in
  exists st',
    Script.invoke network clock getBaseURL getAuthorizationHeader params context init
      = (Return {| Script.InvokeResult.status := "success";
                   Script.InvokeResult.username := username;
                   Script.InvokeResult.userId := Id first;
                   Script.InvokeResult.sessionsRevoked :=
                     length (List.filter countsAsRevoked outcomes);
                   Script.InvokeResult.processed_at := clock st';
                   Script.InvokeResult.address := baseUrl |}, st')
    /\ warnings (trace st')
       = map (fun so => deleteWarning so.1 so.2)
           (sessionsWhere (fun o => negb (countsAsRevoked o)) sessions outcomes)
    /\ httpCalls (trace st')
       = [("GET", userQueryUrl); ("GET", sessionQueryUrl)]
           ++ map (fun session => ("DELETE", deleteUrl session)) sessions.
Proof.
  intros outcomes. subst outcomes.
  destruct (decide (length sessions = 0)) as [Hzero|Hpos].
  - destruct script_invoke_no_sessions as (st' & Hrun & Hwarn & Hcalls).
    { fold sessions. by destruct sessions. }
    exists st'. rewrite Hrun, Hwarn, Hcalls.
    destruct sessions; [done | discriminate].
  - run_session_query. fold sessions.
    apply Nat.eqb_neq in Hpos. rewrite Hpos. simpl.
    rewrite script_revokeSessions_run.
    simpl. eexists. split; [reflexivity|]. simpl.
    rewrite !warnings_app, !httpCalls_app, warnings_loopTrace. simpl.
    rewrite httpCalls_loopTrace by (simpl; by rewrite length_outcomesFrom).
    by rewrite !app_nil_r.
Qed.

(** The module script on mixed delete outcomes: same count, same
    warnings. *)
Lemma script_invoke_mixed_outcomes :
  let outcomes := outcomesFrom network 2 (length sessions) in
  Forall (fun o => is204or404 o || isOtherFailure o = true) outcomes ->
  exists st',
    Script.invoke network clock getBaseURL getAuthorizationHeader params context init
      = (Return {| Script.InvokeResult.status := "success";
                   Script.InvokeResult.username := username;
                   Script.InvokeResult.userId := Id first;
                   Script.InvokeResult.sessionsRevoked :=
                     length (List.filter is204or404 outcomes);
                   Script.InvokeResult.processed_at := clock st';
                   Script.InvokeResult.address := baseUrl |}, st')
    /\ Forall2 (fun warning so =>
                  warning = deleteWarning so.1 so.2
                  /\ includes warning (Id so.1) = true)
         (warnings (trace st'))
         (sessionsWhere (fun o => negb (is204or404 o)) sessions outcomes).
Proof.
  intros outcomes Hshape.
  destruct script_invoke_run as (st' & Hrun & Hwarn & _).
  fold outcomes in Hrun, Hwarn.
  rewrite (filter_countsAsRevoked_204_404 _ Hshape) in Hrun.
  rewrite (sessionsWhere_204_404 _ _ Hshape) in Hwarn.
  exists st'. split; [done|]. rewrite Hwarn.
  apply Forall2_map_self, Forall_forall. intros [session o] _.
  split; [done | apply deleteWarning_includes_Id].
Qed.

End ScriptInvoke.

Section ScriptAnyRun.
Variable network : nat -> FetchOutcome.
Variable clock : State -> string.
Variable getBaseURL : Script.InvokeParams.t -> Context -> Result string.
Variable getAuthorizationHeader : Context -> Result string.

(** A record returned by the module script has status "success" as well. *)
Lemma script_invoke_status_success params context st r st' :
  Script.invoke network clock getBaseURL getAuthorizationHeader params context st
    = (Return r, st') ->
  Script.InvokeResult.status r = "success".
Proof.
  unfold Script.invoke. unfold_monad. simpl.
  destruct (getBaseURL _ _); simpl; [|done].
  destruct (getAuthorizationHeader _); simpl; [|done].
  destruct (encodeURIComponent _); simpl; [|done].
  destruct (network _) as [userResponse|]; simpl; [|done].
  destruct (Response.ok userResponse); simpl; [|done].
  destruct (Response.json userResponse) as [userData|]; simpl; [|done].
  destruct (records userData) as [[|first more]|]; simpl; [done| |done].
  destruct (network _) as [sessionResponse|]; simpl; [|done].
  destruct (Response.ok sessionResponse); simpl; [|done].
  destruct (Response.json sessionResponse) as [sessionData|]; simpl; [|done].
  destruct (length _ =? 0); simpl; [by intros [= <- _]|].
  destruct (Script.revokeSessions _ _ _ _ _ _) as [[n|e] st'']; simpl; [|done].
  by intros [= <- _].
Qed.

(** When one of the two resolvers throws, [invoke] throws the same error
    and has made no call of its own. *)
Lemma script_invoke_resolver_fails params context e :
  getBaseURL params context = Throw e
  \/ (exists baseUrl, getBaseURL params context = Return baseUrl
                      /\ getAuthorizationHeader context = Throw e) ->
  exists st',
    Script.invoke network clock getBaseURL getAuthorizationHeader params context init
      = (Throw e, st')
    /\ fetches st' = 0 /\ httpCalls (trace st') = [].
Proof.
  intros [Hbase | (baseUrl & Hbase & Hauth)];
    unfold Script.invoke; unfold_monad; simpl; rewrite Hbase; simpl;
    rewrite ?Hauth; by eexists.
Qed.

End ScriptAnyRun.

(** C6 (amended): the bundled script checks username, access token and
    instance URL in this order, and the first that is missing or empty makes
    [invoke] fail with the message that names it ("username is required",
    "SALESFORCE_ACCESS_TOKEN secret is required",
    "SALESFORCE_INSTANCE_URL environment variable is required"), having done
    nothing but write its first log line.  The module script has no check of
    the username; when [getBaseURL] throws, or [getBaseURL] returns and
    [getAuthorizationHeader] throws, its [invoke] fails with that very
    error, again having done nothing but write its first log line.  In no
    case has an HTTP call been made. *)
Theorem invoke_fails_before_any_call :
  let started :=
    {| fetches := 0; trace := [console_log "Starting Salesforce session revocation"] |} in
  (forall network URL_toString clock params context,
     (truthy (Dist.InvokeParams.username params) = None ->
      Dist.invoke network URL_toString clock params context init
      = (Throw (Error "username is required"), started))
     /\ (is_Some (truthy (Dist.InvokeParams.username params)) ->
         truthy (secrets context !! "SALESFORCE_ACCESS_TOKEN") = None ->
         Dist.invoke network URL_toString clock params context init
         = (Throw (Error "SALESFORCE_ACCESS_TOKEN secret is required"), started))
     /\ (is_Some (truthy (Dist.InvokeParams.username params)) ->
         is_Some (truthy (secrets context !! "SALESFORCE_ACCESS_TOKEN")) ->
         truthy (environment context !! "SALESFORCE_INSTANCE_URL") = None ->
         Dist.invoke network URL_toString clock params context init
         = (Throw (Error "SALESFORCE_INSTANCE_URL environment variable is required"),
            started)))
  /\
  (forall network clock getBaseURL getAuthorizationHeader params context e,
     getBaseURL params context = Throw e
     \/ (exists baseUrl, getBaseURL params context = Return baseUrl
                         /\ getAuthorizationHeader context = Throw e) ->
     Script.invoke network clock getBaseURL getAuthorizationHeader params context init
     = (Throw e, started))
  /\ fetches started = 0 /\ httpCalls (trace started) = [].
Proof.
  intros started. split_and!; [| |done|done].
  - intros network URL_toString clock params context.
    unfold Dist.invoke. unfold_monad. simpl. split_and!.
    + by intros ->.
    + by intros [username ->] ->.
    + by intros [username ->] [accessToken ->] ->.
  - intros network clock getBaseURL getAuthorizationHeader params context e
      [Hbase | (baseUrl & Hbase & Hauth)];
      unfold Script.invoke; unfold_monad; simpl; rewrite Hbase; simpl;
      by rewrite ?Hauth.
Qed.

Section Lifecycle.
Variable clock : State -> string.

(** C8: [halt] returns a record with status "halted", the reason as
    given, the username as given or "unknown" when there is none (or an
    empty one), and the clock reading as timestamp; it makes no HTTP
    call. *)
Theorem dist_halt_acknowledges (params : Dist.HaltParams.t) (context : Context) (st : State) :
  exists r st',
    Dist.halt clock params context st = (Return r, st')
    /\ Dist.HaltResult.status r = "halted"
    /\ Dist.HaltResult.reason r = Dist.HaltParams.reason params
    /\ Dist.HaltResult.username r
       = match Dist.HaltParams.username params with
         | None | Some "" => "unknown"
         | Some given => given
         end
    /\ Dist.HaltResult.halted_at r = clock st'
    /\ fetches st' = fetches st
    /\ httpCalls (trace st') = httpCalls (trace st).
Proof.
  unfold Dist.halt. unfold_monad. simpl. eexists _, _. split; [reflexivity|].
  simpl. rewrite !httpCalls_app, !app_nil_r.
  by destruct (Dist.HaltParams.username params) as [[|c u]|].
Qed.

(** The halt handler of the module script is the same function. *)
Lemma script_halt_acknowledges (params : Script.HaltParams.t) (context : Context) (st : State) :
  exists r st',
    Script.halt clock params context st = (Return r, st')
    /\ Script.HaltResult.status r = "halted"
    /\ Script.HaltResult.reason r = Script.HaltParams.reason params
    /\ Script.HaltResult.username r
       = match Script.HaltParams.username params with
         | None | Some "" => "unknown"
         | Some given => given
         end
    /\ Script.HaltResult.halted_at r = clock st'
    /\ fetches st' = fetches st
    /\ httpCalls (trace st') = httpCalls (trace st).
Proof.
  unfold Script.halt. unfold_monad. simpl. eexists _, _. split; [reflexivity|].
  simpl. rewrite !httpCalls_app, !app_nil_r.
  by destruct (Script.HaltParams.username params) as [[|c u]|].
Qed.

End Lifecycle.

(** C10: a session query that succeeds with a body that has no [records]
    field is read as an empty list of sessions: [invoke] returns status
    "success" with [sessionsRevoked = 0] after the two queries.  The same
    answer given to the user query instead is fatal ("User not found"). *)
Theorem dist_invoke_sessions_without_records
    (network : nat -> FetchOutcome) (URL_toString : string -> string -> Result string)
    (clock : State -> string) (params : Dist.InvokeParams.t) (context : Context)
    (username accessToken instanceUrl : string) (href : string -> string)
    (userResponse sessionResponse : Response.t) (userData sessionData : QueryBody)
    (first : SObject) (more : list SObject) :
  truthy (Dist.InvokeParams.username params) = Some username ->
  truthy (secrets context !! "SALESFORCE_ACCESS_TOKEN") = Some accessToken ->
  truthy (environment context !! "SALESFORCE_INSTANCE_URL") = Some instanceUrl ->
  hasLoneSurrogate username = false ->
  (forall endpoint, URL_toString endpoint instanceUrl = Return (href endpoint)) ->
  network 0 = Resolved userResponse ->
  Response.ok userResponse = true ->
  Response.json userResponse = Return userData ->
  records userData = Some (first :: more) ->
  network 1 = Resolved sessionResponse ->
  Response.ok sessionResponse = true ->
  Response.json sessionResponse = Return sessionData ->
  records sessionData = None ->
  (exists st',
     Dist.invoke network URL_toString clock params context init
       = (Return {| Dist.InvokeResult.status := "success";
                    Dist.InvokeResult.username := username;
                    Dist.InvokeResult.userId := Id first;
                    Dist.InvokeResult.sessionsRevoked := 0;
                    Dist.InvokeResult.processed_at := clock st' |}, st')
     /\ fetches st' = 2
     /\ map fst (httpCalls (trace st')) = ["GET"; "GET"])
  /\
  (forall network',
     network' 0 = Resolved sessionResponse ->
     exists st',
       Dist.invoke network' URL_toString clock params context init
         = (Throw (Error ("User not found: " +:+ username)), st')).
Proof.
  intros Husername Htoken Hinstance Hwellformed Hbase
    Huser Huser_ok Huser_json Huser_records Hsession Hsession_ok Hsession_json Hnone.
  split.
  - destruct (dist_invoke_no_sessions network URL_toString clock params context
                username accessToken instanceUrl Husername Htoken Hinstance Hwellformed
                href Hbase userResponse userData Huser Huser_ok Huser_json first more
                Huser_records sessionResponse sessionData Hsession Hsession_ok
                Hsession_json) as (st' & Hrun & _ & Hcalls).
    { by rewrite Hnone. }
    exists st'. split; [done|]. rewrite Hcalls. split; [|done].
    revert Hrun. unfold Dist.invoke.
    rewrite Husername, Htoken, Hinstance.
    unfold encodeURIComponent. rewrite Hwellformed.
    unfold_monad. simpl. rewrite Hbase. simpl.
    rewrite Huser. simpl. rewrite Huser_ok. simpl. rewrite Huser_json. simpl.
    rewrite Huser_records. simpl. rewrite Hbase. simpl.
    rewrite Hsession. simpl. rewrite Hsession_ok. simpl. rewrite Hsession_json. simpl.
    rewrite Hnone. simpl. by intros [= _ <-].
  - intros network' Huser'.
    destruct (dist_invoke_user_lookup_empty network' URL_toString clock params context
                username accessToken instanceUrl Husername Htoken Hinstance Hwellformed
                href Hbase sessionResponse sessionData Huser' Hsession_ok Hsession_json)
      as (st' & Hrun & _).
    { by rewrite Hnone. }
    by exists st'.
Qed.

(** C2 (amended): on a message that contains one of 429, 502, 503, 504 and
    none of the fatal markers (401, 403, "User not found",
    "username is required", "SALESFORCE_ACCESS_TOKEN",
    "SALESFORCE_INSTANCE_URL") the error handler asks for a retry; on a
    message that contains a fatal marker and none of the four codes it
    re-throws the very error it was given; on a message that contains
    neither it asks for a retry.  Messages that contain both a code and a
    fatal marker are not covered. *)
Theorem dist_error_classification
    (params : Dist.ErrorParams.t) (context : Context) (st : State) :
  let e := Dist.ErrorParams.error params in
  let outcome := (Dist.error params context st).1 in
  (mentionsAny (message e) retryableMarkers = true ->
   mentionsAny (message e) fatalMarkers = false ->
   outcome = Return {| Dist.ErrorResult.status := "retry_requested" |})
  /\ (mentionsAny (message e) retryableMarkers = false ->
      mentionsAny (message e) fatalMarkers = true ->
      outcome = Throw e)
  /\ (mentionsAny (message e) retryableMarkers = false ->
      mentionsAny (message e) fatalMarkers = false ->
      outcome = Return {| Dist.ErrorResult.status := "retry_requested" |}).
Proof.
  intros e outcome. subst outcome. unfold Dist.error. fold e.
  unfold mentionsAny, retryableMarkers, fatalMarkers. simpl.
  rewrite !orb_false_r, !orb_assoc. unfold_monad. simpl.
  destruct (_ || includes (message e) "504"); simpl.
  - by split_and!.
  - destruct (_ || includes (message e) "SALESFORCE_INSTANCE_URL"); simpl; by split_and!.
Qed.

(** The module script's error handler re-throws whatever it is given. *)
Lemma script_error_rethrows (params : Script.ErrorParams.t) (context : Context) (st : State) :
  Script.error params context st = (Throw (Script.ErrorParams.error params), st).
Proof. done. Qed.

(** ** Concrete runs *)

(** One user, three sessions, deletes answered 204, 500, 404: two are
    counted, and the one warning is about session2. *)
Lemma dist_invoke_mixed_outcomes_witness :
  exists st',
    Dist.invoke mixedNetwork originPlusPath fixedClock
      (distParams (Some "test.user@example.com")) distContext init
      = (Return {| Dist.InvokeResult.status := "success";
                   Dist.InvokeResult.username := "test.user@example.com";
                   Dist.InvokeResult.userId := "user123";
                   Dist.InvokeResult.sessionsRevoked := 2;
                   Dist.InvokeResult.processed_at := fixedClock st' |}, st')
    /\ Forall2 (fun warning so =>
                  warning = deleteWarning so.1 so.2
                  /\ includes warning (Id so.1) = true)
         (warnings (trace st'))
         [({| Id := "session2" |}, deleted 500 "Internal Server Error")].
Proof.
  apply (dist_invoke_mixed_outcomes mixedNetwork originPlusPath fixedClock
           (distParams (Some "test.user@example.com")) distContext
           "test.user@example.com" "test-access-token-123456"
           "https://mycompany.salesforce.com"
           eq_refl eq_refl eq_refl eq_refl
           (fun endpoint => "https://mycompany.salesforce.com" +:+ endpoint)
           (fun endpoint => eq_refl)
           _ _ eq_refl eq_refl eq_refl user123 [] eq_refl
           _ _ eq_refl eq_refl eq_refl).
  repeat constructor.
Defined.

(** The user query finds nobody. *)
Lemma dist_invoke_user_not_found_witness :
  exists st',
    Dist.invoke noUserNetwork originPlusPath fixedClock
      (distParams (Some "nonexistent@example.com")) distContext init
      = (Throw (Error "User not found: nonexistent@example.com"), st')
    /\ includes "User not found: nonexistent@example.com" "nonexistent@example.com" = true
    /\ httpCalls (trace st')
       = [("GET", "https://mycompany.salesforce.com/services/data/v61.0/query?q=SELECT+Id+FROM+User+WHERE+username+LIKE+'nonexistent%40example.com'+ORDER+BY+Id+ASC")].
Proof.
  apply (dist_invoke_user_not_found noUserNetwork originPlusPath fixedClock
           (distParams (Some "nonexistent@example.com")) distContext
           "nonexistent@example.com" "test-access-token-123456"
           "https://mycompany.salesforce.com"
           eq_refl eq_refl eq_refl eq_refl
           (fun endpoint => "https://mycompany.salesforce.com" +:+ endpoint)
           (fun endpoint => eq_refl)
           _ _ eq_refl eq_refl eq_refl).
  right. reflexivity.
Defined.

(** One user without sessions. *)
Lemma dist_invoke_zero_sessions_witness :
  exists st',
    Dist.invoke noSessionsNetwork originPlusPath fixedClock
      (distParams (Some "test.user@example.com")) distContext init
      = (Return {| Dist.InvokeResult.status := "success";
                   Dist.InvokeResult.username := "test.user@example.com";
                   Dist.InvokeResult.userId := "user123";
                   Dist.InvokeResult.sessionsRevoked := 0;
                   Dist.InvokeResult.processed_at := fixedClock st' |}, st')
    /\ httpCalls (trace st')
       = [("GET", "https://mycompany.salesforce.com/services/data/v61.0/query?q=SELECT+Id+FROM+User+WHERE+username+LIKE+'test.user%40example.com'+ORDER+BY+Id+ASC");
          ("GET", "https://mycompany.salesforce.com/services/data/v61.0/query?q=SELECT+Id,UsersId+FROM+AuthSession+WHERE+UsersId='user123'+AND+IsCurrent=false+ORDER+BY+Id+ASC")].
Proof.
  apply (dist_invoke_zero_sessions noSessionsNetwork originPlusPath fixedClock
           (distParams (Some "test.user@example.com")) distContext
           "test.user@example.com" "test-access-token-123456"
           "https://mycompany.salesforce.com"
           eq_refl eq_refl eq_refl eq_refl
           (fun endpoint => "https://mycompany.salesforce.com" +:+ endpoint)
           (fun endpoint => eq_refl)
           _ _ eq_refl eq_refl eq_refl user123 [] eq_refl
           _ _ eq_refl eq_refl eq_refl).
  reflexivity.
Defined.

(** A body without [records]: harmless as the answer to the session query,
    fatal as the answer to the user query. *)
Lemma dist_invoke_sessions_without_records_witness :
  (exists st',
     Dist.invoke noRecordsNetwork originPlusPath fixedClock
       (distParams (Some "test.user@example.com")) distContext init
       = (Return {| Dist.InvokeResult.status := "success";
                    Dist.InvokeResult.username := "test.user@example.com";
                    Dist.InvokeResult.userId := "user123";
                    Dist.InvokeResult.sessionsRevoked := 0;
                    Dist.InvokeResult.processed_at := fixedClock st' |}, st')
     /\ fetches st' = 2
     /\ map fst (httpCalls (trace st')) = ["GET"; "GET"])
  /\
  (exists st',
     Dist.invoke (tape [queryOkNoRecords]) originPlusPath fixedClock
       (distParams (Some "test.user@example.com")) distContext init
       = (Throw (Error "User not found: test.user@example.com"), st')).
Proof.
  destruct (dist_invoke_sessions_without_records noRecordsNetwork originPlusPath fixedClock
              (distParams (Some "test.user@example.com")) distContext
              "test.user@example.com" "test-access-token-123456"
              "https://mycompany.salesforce.com"
              (fun endpoint => "https://mycompany.salesforce.com" +:+ endpoint)
              _ _ _ _ user123 []
              eq_refl eq_refl eq_refl eq_refl (fun endpoint => eq_refl)
              eq_refl eq_refl eq_refl eq_refl eq_refl eq_refl eq_refl eq_refl)
    as [Hsessions Huser].
  split; [exact Hsessions | exact (Huser (tape [queryOkNoRecords]) eq_refl)].
Defined.

(** The record of the three-session run. *)
Lemma dist_invoke_status_success_witness :
  exists r st',
    Dist.invoke mixedNetwork originPlusPath fixedClock
      (distParams (Some "test.user@example.com")) distContext init = (Return r, st')
    /\ Dist.InvokeResult.status r = "success".
Proof.
  eexists _, _. split; [vm_compute; reflexivity|].
  eapply (dist_invoke_status_success mixedNetwork originPlusPath fixedClock
            (distParams (Some "test.user@example.com")) distContext init).
  vm_compute. reflexivity.
Defined.

(** The three kinds of error of the handler's test suite. *)
Lemma dist_error_classification_witness :
  (Dist.error {| Dist.ErrorParams.error := Error "Rate limited: 429";
                 Dist.ErrorParams.username := Some "test@example.com" |}
     distContext init).1
    = Return {| Dist.ErrorResult.status := "retry_requested" |}
  /\ (Dist.error {| Dist.ErrorParams.error := Error "Authentication failed: 401";
                    Dist.ErrorParams.username := Some "test@example.com" |}
        distContext init).1
     = Throw (Error "Authentication failed: 401")
  /\ (Dist.error {| Dist.ErrorParams.error := Error "Unknown network error";
                    Dist.ErrorParams.username := Some "test@example.com" |}
        distContext init).1
     = Return {| Dist.ErrorResult.status := "retry_requested" |}.
Proof.
  destruct (dist_error_classification
              {| Dist.ErrorParams.error := Error "Rate limited: 429";
                 Dist.ErrorParams.username := Some "test@example.com" |}
              distContext init) as (Hretry & _ & _).
  destruct (dist_error_classification
              {| Dist.ErrorParams.error := Error "Authentication failed: 401";
                 Dist.ErrorParams.username := Some "test@example.com" |}
              distContext init) as (_ & Hfatal & _).
  destruct (dist_error_classification
              {| Dist.ErrorParams.error := Error "Unknown network error";
                 Dist.ErrorParams.username := Some "test@example.com" |}
              distContext init) as (_ & _ & Hother).
  split; [|split].
  - apply Hretry; reflexivity.
  - apply Hfatal; reflexivity.
  - apply Hother; reflexivity.
Defined.

(** The bundled script with an empty username, without token, and without
    instance URL; the module script without ADDRESS, and without token. *)
Lemma invoke_fails_before_any_call_witness :
  let started :=
    {| fetches := 0; trace := [console_log "Starting Salesforce session revocation"] |} in
  Dist.invoke mixedNetwork originPlusPath fixedClock (distParams (Some "")) emptyContext init
  = (Throw (Error "username is required"), started)
  /\ Dist.invoke mixedNetwork originPlusPath fixedClock
       (distParams (Some "test@example.com")) emptyContext init
     = (Throw (Error "SALESFORCE_ACCESS_TOKEN secret is required"), started)
  /\ Dist.invoke mixedNetwork originPlusPath fixedClock
       (distParams (Some "test@example.com"))
       {| secrets := secrets distContext; environment := ∅ |} init
     = (Throw (Error "SALESFORCE_INSTANCE_URL environment variable is required"), started)
  /\ Script.invoke mixedNetwork fixedClock bearerGetBaseURL bearerGetAuthorizationHeader
       (scriptParams (Some "test@example.com")) emptyContext init
     = (Throw (Error "No URL specified. Provide address parameter or ADDRESS environment variable"),
        started)
  /\ Script.invoke mixedNetwork fixedClock bearerGetBaseURL bearerGetAuthorizationHeader
       (scriptParams (Some "test@example.com"))
       {| secrets := ∅; environment := environment scriptContext |} init
     = (Throw (Error "No authentication configured"), started).
Proof.
  intros started.
  destruct invoke_fails_before_any_call as (Hdist & Hscript & _).
  split_and!.
  - apply (Hdist mixedNetwork originPlusPath fixedClock (distParams (Some "")) emptyContext).
    reflexivity.
  - apply (Hdist mixedNetwork originPlusPath fixedClock
             (distParams (Some "test@example.com")) emptyContext).
    + eexists. reflexivity.
    + reflexivity.
  - apply (Hdist mixedNetwork originPlusPath fixedClock
             (distParams (Some "test@example.com"))
             {| secrets := secrets distContext; environment := ∅ |}).
    + eexists. reflexivity.
    + eexists. reflexivity.
    + reflexivity.
  - apply Hscript. left. reflexivity.
  - apply Hscript. right. eexists. split; reflexivity.
Defined.

(** ** What encodeURIComponent does and does not encode *)

Lemma hexDigit_unreserved (n : nat) : isUnreserved (hexDigit n) = true.
Proof. do 16 (destruct n as [|n]; [reflexivity|]). reflexivity. Qed.

(** The encoded text is made of unreserved characters and percent signs. *)
Lemma encodeBytes_alphabet (s : string) :
  Forall (fun c => isUnreserved c = true \/ c = "%"%char)
    (list_ascii_of_string (encodeBytes s)).
Proof.
  induction s as [|c s IH]; [constructor|].
  cbn [encodeBytes]. destruct (isUnreserved c) eqn:Hc.
  - change (String c "" +:+ encodeBytes s) with (String c (encodeBytes s)).
    constructor; [by left | done].
  - unfold percentEncodeByte.
    change (Forall (fun c => isUnreserved c = true \/ c = "%"%char)
              ("%"%char :: hexDigit (nat_of_ascii c / 16)
                 :: hexDigit (nat_of_ascii c mod 16)
                 :: list_ascii_of_string (encodeBytes s))).
    repeat (constructor; [auto using hexDigit_unreserved|]). exact IH.
Qed.

(** A byte that is not unreserved never survives as itself. *)
Lemma encodeBytes_reserved (c : ascii) (s : string) :
  isUnreserved c = false ->
  encodeBytes (String c s) = percentEncodeByte c +:+ encodeBytes s.
Proof. intros Hc. cbn [encodeBytes]. by rewrite Hc. Qed.

(** The example of the test suite. *)
Lemma encodeURIComponent_test_user :
  encodeURIComponent "test+user@example.com" = Return "test%2Buser%40example.com".
Proof. reflexivity. Qed.

(** The apostrophe is unreserved: it goes through as it is. *)
Lemma encodeBytes_apostrophe (s : string) :
  encodeBytes (String "'" s) = String "'" (encodeBytes s).
Proof. reflexivity. Qed.

(** C7: the user query carries [encodeURIComponent(username)], which leaves
    apostrophes as they are.  For the username [x' OR Username LIKE '%] the
    URL that the module script sends therefore contains
    [LIKE+'x'%20OR%20Username%20LIKE%20'%25'+ORDER]: the first apostrophe of
    the username closes the quoted pattern and the rest of the username is
    part of the query. *)
Theorem user_query_leaves_apostrophes :
  let username := "x' OR Username LIKE '%" in
  let url :=
    "https://mycompany.salesforce.com/services/data/v61.0/query?q=SELECT+Id+FROM+User+WHERE+username+LIKE+'x'%20OR%20Username%20LIKE%20'%25'+ORDER+BY+Id+ASC" in
  encodeURIComponent username = Return "x'%20OR%20Username%20LIKE%20'%25"
  /\ httpCalls (trace (Script.invoke noUserNetwork fixedClock bearerGetBaseURL
                         bearerGetAuthorizationHeader (scriptParams (Some username))
                         scriptContext init).2)
     = [("GET", url)].
Proof. vm_compute. by split. Qed.

(** ** Where the specification's wording does not hold *)

(** An error that says "User not found" contains none of 429, 502, 503,
    504, 401, 403, "username is required", "SALESFORCE_ACCESS_TOKEN" and
    "SALESFORCE_INSTANCE_URL"; the handler re-throws it all the same and
    does not ask for a retry. *)
Lemma dist_error_rethrows_user_not_found :
  let e := Error "User not found: nobody@example.com" in
  let params := {| Dist.ErrorParams.error := e;
                   Dist.ErrorParams.username := Some "nobody@example.com" |} in
  mentionsAny (message e) retryableMarkers = false
  /\ mentionsAny (message e) listedFatalMarkers = false
  /\ (Dist.error params distContext init).1 = Throw e
  /\ (Dist.error params distContext init).1
     <> Return {| Dist.ErrorResult.status := "retry_requested" |}.
Proof. vm_compute. by split_and!. Qed.

(** A message that contains both a retryable code and a fatal marker: a
    user-not-found error for a username with 429 in it.  The handler finds
    the code first and asks for a retry, although "User not found" is on
    its own list of errors not to retry. *)
Lemma dist_error_retryable_first :
  let e := Error "User not found: user429@example.com" in
  (Dist.error {| Dist.ErrorParams.error := e;
                 Dist.ErrorParams.username := Some "user429@example.com" |}
     distContext init).1
  = Return {| Dist.ErrorResult.status := "retry_requested" |}.
Proof. reflexivity. Qed.

(** The module script does not check the username: without one (or with an
    empty one) it resolves URL and credentials, sends the user query for the
    text [undefined] (or for nothing), and only fails on the answer. *)
Lemma script_invoke_missing_username_calls_out :
  let run username :=
    Script.invoke noUserNetwork fixedClock bearerGetBaseURL bearerGetAuthorizationHeader
      (scriptParams username) scriptContext init in
  (run None).1 = Throw (Error "User not found: undefined")
  /\ httpCalls (trace (run None).2)
     = [("GET", "https://mycompany.salesforce.com/services/data/v61.0/query?q=SELECT+Id+FROM+User+WHERE+username+LIKE+'undefined'+ORDER+BY+Id+ASC")]
  /\ (run (Some "")).1 = Throw (Error "User not found: ")
  /\ httpCalls (trace (run (Some "")).2)
     = [("GET", "https://mycompany.salesforce.com/services/data/v61.0/query?q=SELECT+Id+FROM+User+WHERE+username+LIKE+''+ORDER+BY+Id+ASC")].
Proof. vm_compute. by split_and!. Qed.

(* ===================================================================== *)
(** * Further properties of the handlers *)

(** ** The bundled script: how a run fails *)

Section DistFailures.
Variable network : nat -> FetchOutcome.
Variable URL_toString : string -> string -> Result string.
Variable clock : State -> string.
Variable params : Dist.InvokeParams.t.
Variable context : Context.

Variables username accessToken instanceUrl : string.
Hypothesis Husername : truthy (Dist.InvokeParams.username params) = Some username.
Hypothesis Htoken : truthy (secrets context !! "SALESFORCE_ACCESS_TOKEN") = Some accessToken.
Hypothesis Hinstance :
  truthy (environment context !! "SALESFORCE_INSTANCE_URL") = Some instanceUrl.

Let apiVersion : string := default "v61.0" (Dist.InvokeParams.apiVersion params).

Let userQueryEndpoint : string :=
  "/services/data/" +:+ apiVersion
    +:+ "/query?q=SELECT+Id+FROM+User+WHERE+username+LIKE+'"
    +:+ encodeBytes username +:+ "'+ORDER+BY+Id+ASC".

Ltac start_run :=
  unfold Dist.invoke; rewrite Husername, Htoken, Hinstance; unfold encodeURIComponent.

(** X4: A username with a lone surrogate makes [encodeURIComponent] throw: the
    URIError is logged and re-thrown, and nothing is sent. *)
Theorem dist_invoke_malformed_username :
  hasLoneSurrogate username = true ->
  Dist.invoke network URL_toString clock params context init
  = (Throw {| name := "URIError"; message := "URI malformed" |},
     {| fetches := 0;
        trace := [console_log "Starting Salesforce session revocation";
                  console_log ("Processing username: " +:+ username);
                  console_log ("Using API version: " +:+ apiVersion);
                  console_error ("Failed to revoke sessions for user " +:+ username
                                   +:+ ": URI malformed")] |}).
Proof. intros Hlone. start_run. rewrite Hlone. reflexivity. Qed.

Hypothesis Hwellformed : hasLoneSurrogate username = false.
Variable userQueryUrl : string.
Hypothesis Hurl : URL_toString userQueryEndpoint instanceUrl = Return userQueryUrl.

Ltac send_user_query :=
  start_run; rewrite Hwellformed; unfold_monad; simpl;
  fold apiVersion; fold userQueryEndpoint; rewrite Hurl; simpl.

(** X1: A user query answered with a status that is not ok ends the run with
    "Failed to query user: <status> <statusText>"; it was the only call. *)
Theorem dist_invoke_user_query_refused (userResponse : Response.t) :
  network 0 = Resolved userResponse ->
  Response.ok userResponse = false ->
  exists st',
    Dist.invoke network URL_toString clock params context init
    = (Throw (Error ("Failed to query user: " +:+ numStr (Response.status userResponse)
                       +:+ " " +:+ Response.statusText userResponse)), st')
    /\ httpCalls (trace st') = [("GET", userQueryUrl)]
    /\ errorsLogged (trace st')
       = ["Failed to revoke sessions for user " +:+ username +:+ ": Failed to query user: "
            +:+ numStr (Response.status userResponse) +:+ " "
            +:+ Response.statusText userResponse].
Proof.
  intros Huser Hrefused. send_user_query. rewrite Huser. simpl. rewrite Hrefused. simpl.
  eexists. split; [reflexivity|]. by split.
Qed.

(** X3: A transport fault on the user query, or a body that cannot be parsed,
    surfaces as the very error that [fetch] or [json] raised. *)
Theorem dist_invoke_user_query_fault (e : JsError) :
  network 0 = Rejected e
  \/ (exists userResponse, network 0 = Resolved userResponse
        /\ Response.ok userResponse = true /\ Response.json userResponse = Throw e) ->
  exists st',
    Dist.invoke network URL_toString clock params context init = (Throw e, st')
    /\ httpCalls (trace st') = [("GET", userQueryUrl)]
    /\ errorsLogged (trace st')
       = ["Failed to revoke sessions for user " +:+ username +:+ ": " +:+ message e].
Proof.
  intros [Hfault | (userResponse & Huser & Hok & Hjson)]; send_user_query.
  - rewrite Hfault. simpl. eexists. split; [reflexivity|]. by split.
  - rewrite Huser. simpl. rewrite Hok. simpl. rewrite Hjson. simpl.
    eexists. split; [reflexivity|]. by split.
Qed.

(** The user query finds a user. *)
Variable userResponse : Response.t.
Variable userData : QueryBody.
Variable first : SObject.
Variable more : list SObject.
Hypothesis Huser : network 0 = Resolved userResponse.
Hypothesis Huser_ok : Response.ok userResponse = true.
Hypothesis Huser_json : Response.json userResponse = Return userData.
Hypothesis Huser_records : records userData = Some (first :: more).

Let sessionQueryEndpoint : string :=
  "/services/data/" +:+ apiVersion
    +:+ "/query?q=SELECT+Id,UsersId+FROM+AuthSession+WHERE+UsersId='"
    +:+ Id first +:+ "'+AND+IsCurrent=false+ORDER+BY+Id+ASC".

Variable sessionQueryUrl : string.
Hypothesis Hurl2 : URL_toString sessionQueryEndpoint instanceUrl = Return sessionQueryUrl.

(** X2: A session query answered with a status that is not ok ends the run
    with "Failed to query sessions: <status> <statusText>", after the two
    queries and before any delete. *)
Theorem dist_invoke_session_query_refused (sessionResponse : Response.t) :
  network 1 = Resolved sessionResponse ->
  Response.ok sessionResponse = false ->
  exists st',
    Dist.invoke network URL_toString clock params context init
    = (Throw (Error ("Failed to query sessions: "
                       +:+ numStr (Response.status sessionResponse)
                       +:+ " " +:+ Response.statusText sessionResponse)), st')
    /\ httpCalls (trace st') = [("GET", userQueryUrl); ("GET", sessionQueryUrl)].
Proof.
  intros Hsession Hrefused. send_user_query.
  rewrite Huser. simpl. rewrite Huser_ok. simpl. rewrite Huser_json. simpl.
  rewrite Huser_records. simpl.
  fold apiVersion. fold sessionQueryEndpoint. rewrite Hurl2. simpl.
  rewrite Hsession. simpl. rewrite Hrefused. simpl.
  eexists. split; reflexivity.
Qed.

End DistFailures.

(** ** The bundled script: what holds of every run *)

Lemma errorsLogged_app (a b : list event) :
  errorsLogged (a ++ b) = errorsLogged a ++ errorsLogged b.
Proof.
  induction a as [|e a IH]; [done|].
  destruct e; simpl; by rewrite ?IH.
Qed.

Lemma timers_app (a b : list event) : timers (a ++ b) = timers a ++ timers b.
Proof.
  induction a as [|e a IH]; [done|].
  destruct e; simpl; by rewrite ?IH.
Qed.

Lemma truthy_Some (v : option string) (s : string) : truthy v = Some s -> v = Some s.
Proof. destruct v as [[|c v]|]; simpl; congruence. Qed.

Section DistEveryRun.
Variable network : nat -> FetchOutcome.
Variable URL_toString : string -> string -> Result string.
Variable clock : State -> string.

(** What the loop adds to a run: DELETE calls with the script's headers
    and console output; at most one more session counted per call sent. *)
Lemma dist_revokeSessions_effects apiVersion instanceUrl accessToken sessions :
  forall n st,
  exists m st' added,
    Dist.revokeSessions network URL_toString apiVersion instanceUrl accessToken
      sessions n st = (Return m, st')
    /\ trace st' = trace st ++ added
    /\ Forall (getOrDeleteWith (distHeaders accessToken)) added
    /\ m + fetches st <= n + fetches st'
    /\ errorsLogged added = [] /\ timers added = [].
Proof.
  induction sessions as [|session rest IH]; intros n st; simpl.
  - exists n, st, []. rewrite app_nil_r. by split_and!.
  - unfold bind at 1. unfold_monad.
    destruct (URL_toString _ _) as [url|e]; simpl;
      [ destruct (network (fetches st)) as [r|e]; simpl;
          [ destruct (_ || _); simpl; [|destruct (Response.ok r); simpl] | ] | ];
      edestruct IH as (m & st' & added & -> & Htrace & Hcalls & Hcount & Herr & Htim);
      simpl in Htrace, Hcount; rewrite <- ?app_assoc in Htrace; simpl in Htrace;
      match type of Htrace with
      | _ = _ ++ ?e1 :: ?e2 :: added => exists m, st', (e1 :: e2 :: added)
      | _ = _ ++ ?e1 :: added => exists m, st', (e1 :: added)
      end;
      (split; [reflexivity|]); (split; [exact Htrace|]);
      (split; [repeat (apply Forall_cons; split; [simpl; auto|]); exact Hcalls|]);
      (split; [lia|]); simpl; by split.
Qed.

End DistEveryRun.

Section DistEveryInvoke.
Variable network : nat -> FetchOutcome.
Variable URL_toString : string -> string -> Result string.
Variable clock : State -> string.
Variable params : Dist.InvokeParams.t.
Variable context : Context.

(** X6: Every HTTP call the bundled [invoke] makes, in any run, is a GET or a
    DELETE carrying "Authorization: Bearer <SALESFORCE_ACCESS_TOKEN>" and
    the two JSON headers; [invoke] never sets a timer. *)
Theorem dist_invoke_calls_authorized :
  let st' := (Dist.invoke network URL_toString clock params context init).2 in
  Forall (getOrDeleteWith
            (distHeaders (default "" (secrets context !! "SALESFORCE_ACCESS_TOKEN"))))
    (trace st')
  /\ timers (trace st') = [].
Proof.
  unfold Dist.invoke. unfold_monad. simpl.
  destruct (truthy (Dist.InvokeParams.username params)) as [username|];
    [|simpl; split; [repeat constructor | done]].
  destruct (truthy (secrets context !! _)) as [accessToken|] eqn:Htoken;
    [|simpl; split; [repeat constructor | done]].
  apply truthy_Some in Htoken. rewrite Htoken. simpl.
  destruct (truthy (environment context !! _)) as [instanceUrl|];
    [|simpl; split; [repeat constructor | done]].
  destruct (encodeURIComponent _); simpl; [|split; [repeat constructor | done]].
  destruct (URL_toString _ _); simpl; [|split; [repeat constructor | done]].
  destruct (network _) as [userResponse|]; simpl;
    [|split; [repeat constructor; auto | done]].
  destruct (Response.ok userResponse); simpl;
    [|split; [repeat constructor; auto | done]].
  destruct (Response.json userResponse) as [userData|]; simpl;
    [|split; [repeat constructor; auto | done]].
  destruct (records userData) as [[|first more]|]; simpl;
    [split; [repeat constructor; auto | done]| |split; [repeat constructor; auto | done]].
  destruct (URL_toString _ _); simpl; [|split; [repeat constructor; auto | done]].
  destruct (network _) as [sessionResponse|]; simpl;
    [|split; [repeat constructor; auto | done]].
  destruct (Response.ok sessionResponse); simpl;
    [|split; [repeat constructor; auto | done]].
  destruct (Response.json sessionResponse) as [sessionData|]; simpl;
    [|split; [repeat constructor; auto | done]].
  destruct (length _ =? 0); simpl; [split; [repeat constructor; auto | done]|].
  match goal with
  | |- context [Dist.revokeSessions ?nw ?u ?v ?b ?t ?ss ?n ?st] =>
      destruct (dist_revokeSessions_effects nw u v b t ss n st)
        as (m & st'' & added & -> & Htrace & Hcalls & _ & _ & Htimers)
  end.
  simpl. rewrite Htrace. simpl. rewrite !timers_app, Htimers. split; [|done].
  repeat (apply Forall_cons; split; [simpl; auto|]).
  apply Forall_app. split; [exact Hcalls | repeat constructor].
Qed.

(** X7: A record returned by the bundled [invoke] carries the username it was
    given, and counts at most as many sessions as delete calls were sent
    after the two queries; nothing was logged as an error. *)
Theorem dist_invoke_result_accounts r st' :
  Dist.invoke network URL_toString clock params context init = (Return r, st') ->
  Dist.InvokeParams.username params = Some (Dist.InvokeResult.username r)
  /\ Dist.InvokeResult.sessionsRevoked r + 2 <= fetches st'
  /\ errorsLogged (trace st') = [].
Proof.
  unfold Dist.invoke. unfold_monad. simpl.
  destruct (truthy (Dist.InvokeParams.username params)) as [username|] eqn:Husername;
    [|done].
  apply truthy_Some in Husername.
  destruct (truthy (secrets context !! _)); [|done].
  destruct (truthy (environment context !! _)); [|done].
  destruct (encodeURIComponent _); simpl; [|done].
  destruct (URL_toString _ _); simpl; [|done].
  destruct (network _) as [userResponse|]; simpl; [|done].
  destruct (Response.ok userResponse); simpl; [|done].
  destruct (Response.json userResponse) as [userData|]; simpl; [|done].
  destruct (records userData) as [[|first more]|]; simpl; [done| |done].
  destruct (URL_toString _ _); simpl; [|done].
  destruct (network _) as [sessionResponse|]; simpl; [|done].
  destruct (Response.ok sessionResponse); simpl; [|done].
  destruct (Response.json sessionResponse) as [sessionData|]; simpl; [|done].
  destruct (length _ =? 0); simpl; [by intros [= <- <-]|].
  match goal with
  | |- context [Dist.revokeSessions ?nw ?u ?v ?b ?t ?ss ?n ?st] =>
      destruct (dist_revokeSessions_effects nw u v b t ss n st)
        as (m & st'' & added & -> & Htrace & _ & Hcount & Herrors & _)
  end.
  simpl in *. intros [= <- <-]. simpl. split; [done|]. split; [lia|].
  rewrite Htrace. simpl. by rewrite !errorsLogged_app, Herrors.
Qed.

(** X5: Once the inputs have passed validation, whatever makes [invoke] fail
    is logged with [console.error], naming the user and the error's
    message, as the last thing before the error is passed on. *)
Theorem dist_invoke_failure_is_logged username st e st' :
  truthy (Dist.InvokeParams.username params) = Some username ->
  is_Some (truthy (secrets context !! "SALESFORCE_ACCESS_TOKEN")) ->
  is_Some (truthy (environment context !! "SALESFORCE_INSTANCE_URL")) ->
  Dist.invoke network URL_toString clock params context st = (Throw e, st') ->
  exists earlier,
    trace st' = earlier ++ [console_error ("Failed to revoke sessions for user "
                                             +:+ username +:+ ": " +:+ message e)].
Proof.
  intros Husername [accessToken Htoken] [instanceUrl Hinstance].
  unfold Dist.invoke. rewrite Husername, Htoken, Hinstance. unfold_monad. simpl.
  destruct (encodeURIComponent _); simpl; [|intros [= <- <-]; by eexists].
  destruct (URL_toString _ _); simpl; [|intros [= <- <-]; by eexists].
  destruct (network _) as [userResponse|]; simpl; [|intros [= <- <-]; by eexists].
  destruct (Response.ok userResponse); simpl; [|intros [= <- <-]; by eexists].
  destruct (Response.json userResponse) as [userData|]; simpl;
    [|intros [= <- <-]; by eexists].
  destruct (records userData) as [[|first more]|]; simpl;
    [intros [= <- <-]; by eexists| |intros [= <- <-]; by eexists].
  destruct (URL_toString _ _); simpl; [|intros [= <- <-]; by eexists].
  destruct (network _) as [sessionResponse|]; simpl; [|intros [= <- <-]; by eexists].
  destruct (Response.ok sessionResponse); simpl; [|intros [= <- <-]; by eexists].
  destruct (Response.json sessionResponse) as [sessionData|]; simpl;
    [|intros [= <- <-]; by eexists].
  destruct (length _ =? 0); simpl; [done|].
  match goal with
  | |- context [Dist.revokeSessions ?nw ?u ?v ?b ?t ?ss ?n ?st] =>
      destruct (dist_revokeSessions_effects nw u v b t ss n st)
        as (m & st'' & added & -> & _)
  end.
  done.
Qed.

End DistEveryInvoke.

(** ** The bundled script: validation, and what the error handler makes of
       the errors [invoke] throws *)

Section DistValidation.
Variable network : nat -> FetchOutcome.
Variable URL_toString : string -> string -> Result string.
Variable clock : State -> string.
Variable params : Dist.InvokeParams.t.
Variable context : Context.

Let started : State :=
  {| fetches := 0; trace := [console_log "Starting Salesforce session revocation"] |}.

(** X8: The three checks are made in the order username, access token,
    instance URL, and the first that fails decides the message; the error
    is thrown before the try block, so it is not logged. *)
Theorem dist_invoke_validation_order :
  (truthy (Dist.InvokeParams.username params) = None ->
     Dist.invoke network URL_toString clock params context init
     = (Throw (Error "username is required"), started))
  /\ (is_Some (truthy (Dist.InvokeParams.username params)) ->
      truthy (secrets context !! "SALESFORCE_ACCESS_TOKEN") = None ->
      Dist.invoke network URL_toString clock params context init
      = (Throw (Error "SALESFORCE_ACCESS_TOKEN secret is required"), started))
  /\ (is_Some (truthy (Dist.InvokeParams.username params)) ->
      is_Some (truthy (secrets context !! "SALESFORCE_ACCESS_TOKEN")) ->
      truthy (environment context !! "SALESFORCE_INSTANCE_URL") = None ->
      Dist.invoke network URL_toString clock params context init
      = (Throw (Error "SALESFORCE_INSTANCE_URL environment variable is required"),
         started)).
Proof.
  unfold Dist.invoke. unfold_monad. simpl. split_and!.
  - by intros ->.
  - by intros [username ->] ->.
  - by intros [username ->] [accessToken ->] ->.
Qed.

(** X9: An invocation that fails validation fails for good: handed to the
    error handler, the error it threw is thrown again, with whatever
    username the handler is told. *)
Theorem dist_validation_error_is_fatal :
  truthy (Dist.InvokeParams.username params) = None
  \/ truthy (secrets context !! "SALESFORCE_ACCESS_TOKEN") = None
  \/ truthy (environment context !! "SALESFORCE_INSTANCE_URL") = None ->
  exists e st',
    Dist.invoke network URL_toString clock params context init = (Throw e, st')
    /\ forall username context' st,
         (Dist.error {| Dist.ErrorParams.error := e;
                        Dist.ErrorParams.username := username |} context' st).1
         = Throw e.
Proof.
  intros Hmissing. unfold Dist.invoke. unfold_monad. simpl.
  destruct (truthy (Dist.InvokeParams.username params)) as [username|];
    [|eexists _, _; split; [reflexivity | by intros]].
  destruct (truthy (secrets context !! _)) as [accessToken|];
    [|eexists _, _; split; [reflexivity | by intros]].
  destruct (truthy (environment context !! _)) as [instanceUrl|];
    [|eexists _, _; split; [reflexivity | by intros]].
  by destruct Hmissing as [|[|]].
Qed.

End DistValidation.

Lemma numStr_retryable (status : nat) :
  In status [429; 502; 503; 504] -> In (numStr status) retryableMarkers.
Proof.
  simpl. intros [<-|[<-|[<-|[<-|[]]]]]; vm_compute; tauto.
Qed.

Lemma mentionsAny_app (before marker after : string) (markers : list string) :
  In marker markers -> mentionsAny (before +:+ marker +:+ after) markers = true.
Proof.
  intros Hin. unfold mentionsAny. apply existsb_exists.
  exists marker. split; [done | apply includes_app].
Qed.

Section DistRetry.
Variable network : nat -> FetchOutcome.
Variable URL_toString : string -> string -> Result string.
Variable clock : State -> string.
Variable params : Dist.InvokeParams.t.
Variable context : Context.

Variables username accessToken instanceUrl : string.
Hypothesis Husername : truthy (Dist.InvokeParams.username params) = Some username.
Hypothesis Htoken : truthy (secrets context !! "SALESFORCE_ACCESS_TOKEN") = Some accessToken.
Hypothesis Hinstance :
  truthy (environment context !! "SALESFORCE_INSTANCE_URL") = Some instanceUrl.
Hypothesis Hwellformed : hasLoneSurrogate username = false.
Variable href : string -> string.
Hypothesis Hbase : forall endpoint, URL_toString endpoint instanceUrl = Return (href endpoint).

(** X10: A user query answered 429, 502, 503 or 504 makes [invoke] throw an
    error that the error handler answers with "retry_requested", after a
    wait of 5000 ms. *)
Theorem dist_rate_limited_query_is_retried (userResponse : Response.t) :
  network 0 = Resolved userResponse ->
  Response.ok userResponse = false ->
  In (Response.status userResponse) [429; 502; 503; 504] ->
  exists e st',
    Dist.invoke network URL_toString clock params context init = (Throw e, st')
    /\ forall context' st,
         Dist.error {| Dist.ErrorParams.error := e;
                       Dist.ErrorParams.username := Some username |} context' st
         = (Return {| Dist.ErrorResult.status := "retry_requested" |},
            {| fetches := fetches st;
               trace := trace st
                 ++ [console_error ("Session revocation encountered error for user "
                                      +:+ username +:+ ": " +:+ message e);
                     console_log "Detected retryable error, waiting before retry...";
                     setTimeout 5000] |}).
Proof.
  intros Huser Hrefused Hstatus.
  unfold Dist.invoke. rewrite Husername, Htoken, Hinstance.
  unfold encodeURIComponent. rewrite Hwellformed. unfold_monad. simpl.
  rewrite Hbase. simpl. rewrite Huser. simpl. rewrite Hrefused. simpl.
  eexists _, _. split; [reflexivity|]. intros context' st.
  pose proof (mentionsAny_app "Failed to query user: "
                (numStr (Response.status userResponse))
                (" " +:+ Response.statusText userResponse) retryableMarkers
                (numStr_retryable _ Hstatus)) as Hretry.
  unfold mentionsAny, retryableMarkers in Hretry. simpl in Hretry.
  rewrite orb_false_r, !orb_assoc in Hretry.
  unfold Dist.error. simpl. rewrite Hretry. unfold_monad. simpl.
  by rewrite <- !app_assoc.
Qed.

End DistRetry.

(** X11: The error handler, whatever its verdict, logs the error once, makes no
    HTTP call, and waits 5000 ms exactly when it has found one of the
    codes 429, 502, 503, 504 in the message. *)
Theorem dist_error_effects (params : Dist.ErrorParams.t) (context : Context) (st : State) :
  let e := Dist.ErrorParams.error params in
  let st' := (Dist.error params context st).2 in
  fetches st' = fetches st
  /\ httpCalls (trace st') = httpCalls (trace st)
  /\ errorsLogged (trace st')
     = errorsLogged (trace st)
         ++ ["Session revocation encountered error for user "
               +:+ str (Dist.ErrorParams.username params) +:+ ": " +:+ message e]
  /\ timers (trace st')
     = timers (trace st) ++ (if mentionsAny (message e) retryableMarkers then [5000] else []).
Proof.
  intros e st'. subst st'. unfold Dist.error. fold e.
  unfold mentionsAny, retryableMarkers. simpl.
  rewrite !orb_false_r, !orb_assoc. unfold_monad. simpl.
  destruct (_ || includes (message e) "504"); simpl.
  - rewrite !httpCalls_app, !errorsLogged_app, !timers_app. simpl.
    by rewrite !app_nil_r.
  - destruct (_ || includes (message e) "SALESFORCE_INSTANCE_URL"); simpl;
      rewrite !httpCalls_app, !errorsLogged_app, !timers_app; simpl;
      by rewrite !app_nil_r.
Qed.

(** ** The bundled script: a run that reaches the deletes *)

Lemma length_filter_negb {A} (p : A -> bool) (l : list A) :
  length (List.filter p l) + length (List.filter (fun x => negb (p x)) l) = length l.
Proof. induction l as [|x l IH]; [done|]. simpl. destruct (p x); simpl; lia. Qed.

Lemma length_sessionsWhere p sessions : forall outcomes,
  length outcomes = length sessions ->
  length (sessionsWhere p sessions outcomes) = length (List.filter p outcomes).
Proof.
  unfold sessionsWhere.
  induction sessions as [|session rest IH]; intros [|o outcomes] Hlen; try done.
  simpl. destruct (p o); simpl; rewrite IH; auto.
Qed.

Section DistDeletes.
Variable network : nat -> FetchOutcome.
Variable URL_toString : string -> string -> Result string.
Variable clock : State -> string.
Variable params : Dist.InvokeParams.t.
Variable context : Context.

Variables username accessToken instanceUrl : string.
Hypothesis Husername : truthy (Dist.InvokeParams.username params) = Some username.
Hypothesis Htoken : truthy (secrets context !! "SALESFORCE_ACCESS_TOKEN") = Some accessToken.
Hypothesis Hinstance :
  truthy (environment context !! "SALESFORCE_INSTANCE_URL") = Some instanceUrl.
Hypothesis Hwellformed : hasLoneSurrogate username = false.
Variable href : string -> string.
Hypothesis Hbase : forall endpoint, URL_toString endpoint instanceUrl = Return (href endpoint).

Variable userResponse : Response.t.
Variable userData : QueryBody.
Variable first : SObject.
Variable more : list SObject.
Hypothesis Huser : network 0 = Resolved userResponse.
Hypothesis Huser_ok : Response.ok userResponse = true.
Hypothesis Huser_json : Response.json userResponse = Return userData.
Hypothesis Huser_records : records userData = Some (first :: more).

Variable sessionResponse : Response.t.
Variable sessionData : QueryBody.
Hypothesis Hsession : network 1 = Resolved sessionResponse.
Hypothesis Hsession_ok : Response.ok sessionResponse = true.
Hypothesis Hsession_json : Response.json sessionResponse = Return sessionData.

Let apiVersion : string := default "v61.0" (Dist.InvokeParams.apiVersion params).
Let sessions : list SObject := default [] (records sessionData).

Let run_facts :=
  dist_invoke_run network URL_toString clock params context username accessToken
    instanceUrl Husername Htoken Hinstance Hwellformed href Hbase userResponse userData
    Huser Huser_ok Huser_json first more Huser_records sessionResponse sessionData
    Hsession Hsession_ok Hsession_json.

(** X12: The HTTP calls of a run that gets past both queries, whatever the
    deletes are answered: the user query, the session query for the Id of
    the first user record, then one DELETE per listed session, in the
    order of the list, all under the API version given (v61.0 when none
    is). *)
Theorem dist_invoke_calls_in_order :
  exists r st',
    Dist.invoke network URL_toString clock params context init = (Return r, st')
    /\ httpCalls (trace st')
       = ("GET", href ("/services/data/" +:+ apiVersion
                         +:+ "/query?q=SELECT+Id+FROM+User+WHERE+username+LIKE+'"
                         +:+ encodeBytes username +:+ "'+ORDER+BY+Id+ASC"))
         :: ("GET", href ("/services/data/" +:+ apiVersion
                            +:+ "/query?q=SELECT+Id,UsersId+FROM+AuthSession+WHERE+UsersId='"
                            +:+ Id first +:+ "'+AND+IsCurrent=false+ORDER+BY+Id+ASC"))
         :: map (fun session =>
                   ("DELETE", href ("/services/data/" +:+ apiVersion
                                      +:+ "/sobjects/AuthSession/" +:+ Id session)))
              sessions.
Proof.
  destruct run_facts as (st' & Hrun & _ & Hcalls).
  eexists _, st'. split; [exact Hrun | exact Hcalls].
Qed.

(** X13: In such a run every listed session is either counted or warned about:
    [sessionsRevoked] is the number of delete calls answered 204, 404 or
    with an ok status, there is one warning for each other session (a
    refused delete or a transport fault), each naming its session, and the
    two numbers add up to the number of sessions. *)
Theorem dist_invoke_sessions_accounted :
  let outcomes := outcomesFrom network 2 (length sessions) in
  exists r st',
    Dist.invoke network URL_toString clock params context init = (Return r, st')
    /\ Dist.InvokeResult.sessionsRevoked r = length (List.filter countsAsRevoked outcomes)
    /\ Forall2 (fun warning so => includes warning (Id so.1) = true)
         (warnings (trace st'))
         (sessionsWhere (fun o => negb (countsAsRevoked o)) sessions outcomes)
    /\ Dist.InvokeResult.sessionsRevoked r + length (warnings (trace st'))
       = length sessions.
Proof.
  intros outcomes.
  destruct run_facts as (st' & Hrun & Hwarn & _). fold sessions outcomes in Hrun, Hwarn.
  eexists _, st'. split; [exact Hrun|]. simpl. split; [done|].
  rewrite Hwarn. split.
  - apply Forall2_map_self, Forall_forall. intros [session o] _.
    apply deleteWarning_includes_Id.
  - rewrite length_map, length_sessionsWhere by apply length_outcomesFrom.
    rewrite length_filter_negb. apply length_outcomesFrom.
Qed.

End DistDeletes.

(** ** The module script *)

Section ScriptEveryRun.
Variable network : nat -> FetchOutcome.
Variable clock : State -> string.
Variable getBaseURL : Script.InvokeParams.t -> Context -> Result string.
Variable getAuthorizationHeader : Context -> Result string.

(** What the loop of the module script adds to a run. *)
Lemma script_revokeSessions_effects baseUrl authHeader sessions :
  forall n st,
  exists m st' added,
    Script.revokeSessions network baseUrl authHeader sessions n st = (Return m, st')
    /\ trace st' = trace st ++ added
    /\ Forall (getOrDeleteWith (scriptHeaders authHeader)) added
    /\ errorsLogged added = [].
Proof.
  induction sessions as [|session rest IH]; intros n st; simpl.
  - exists n, st, []. rewrite app_nil_r. by split_and!.
  - unfold bind at 1. unfold_monad. simpl.
    destruct (network (fetches st)) as [r|e]; simpl;
      [ destruct (_ || _); simpl; [|destruct (Response.ok r); simpl] | ];
      edestruct IH as (m & st' & added & -> & Htrace & Hcalls & Herr);
      simpl in Htrace; rewrite <- ?app_assoc in Htrace; simpl in Htrace;
      match type of Htrace with
      | _ = _ ++ ?e1 :: ?e2 :: added => exists m, st', (e1 :: e2 :: added)
      end;
      (split; [reflexivity|]); (split; [exact Htrace|]);
      (split; [repeat (apply Forall_cons; split; [simpl; auto|]); exact Hcalls|]);
      simpl; done.
Qed.

Variable params : Script.InvokeParams.t.
Variable context : Context.

(** X14: Every HTTP call the module script makes is a GET or a DELETE whose
    Authorization header is, as it stands, what [getAuthorizationHeader]
    returned, next to the two JSON headers. *)
Theorem script_invoke_calls_authorized authHeader :
  getAuthorizationHeader context = Return authHeader ->
  Forall (getOrDeleteWith (scriptHeaders authHeader))
    (trace (Script.invoke network clock getBaseURL getAuthorizationHeader
              params context init).2).
Proof.
  intros Hauth. unfold Script.invoke. unfold_monad. simpl.
  destruct (getBaseURL _ _) as [baseUrl|]; simpl; [|repeat constructor].
  rewrite Hauth. simpl.
  destruct (encodeURIComponent _); simpl; [|repeat constructor].
  destruct (network _) as [userResponse|]; simpl; [|repeat constructor; auto].
  destruct (Response.ok userResponse); simpl; [|repeat constructor; auto].
  destruct (Response.json userResponse) as [userData|]; simpl;
    [|repeat constructor; auto].
  destruct (records userData) as [[|first more]|]; simpl;
    [repeat constructor; auto| |repeat constructor; auto].
  destruct (network _) as [sessionResponse|]; simpl; [|repeat constructor; auto].
  destruct (Response.ok sessionResponse); simpl; [|repeat constructor; auto].
  destruct (Response.json sessionResponse) as [sessionData|]; simpl;
    [|repeat constructor; auto].
  destruct (length _ =? 0); simpl; [repeat constructor; auto|].
  match goal with
  | |- context [Script.revokeSessions ?nw ?b ?h ?ss ?n ?st] =>
      destruct (script_revokeSessions_effects b h ss n st)
        as (m & st'' & added & -> & Htrace & Hcalls & _)
  end.
  simpl. rewrite Htrace. simpl.
  repeat (apply Forall_cons; split; [simpl; auto|]).
  apply Forall_app. split; [exact Hcalls | repeat constructor].
Qed.

(** X15: A record returned by the module script carries the username exactly
    as it was given (also when it was not given) and, as [address], the
    base URL that [getBaseURL] resolved; nothing was logged as an error. *)
Theorem script_invoke_result_echo r st' :
  Script.invoke network clock getBaseURL getAuthorizationHeader params context init
    = (Return r, st') ->
  Script.InvokeResult.username r = Script.InvokeParams.username params
  /\ getBaseURL params context = Return (Script.InvokeResult.address r)
  /\ errorsLogged (trace st') = [].
Proof.
  unfold Script.invoke. unfold_monad. simpl.
  destruct (getBaseURL _ _) as [baseUrl|]; simpl; [|done].
  destruct (getAuthorizationHeader _); simpl; [|done].
  destruct (encodeURIComponent _); simpl; [|done].
  destruct (network _) as [userResponse|]; simpl; [|done].
  destruct (Response.ok userResponse); simpl; [|done].
  destruct (Response.json userResponse) as [userData|]; simpl; [|done].
  destruct (records userData) as [[|first more]|]; simpl; [done| |done].
  destruct (network _) as [sessionResponse|]; simpl; [|done].
  destruct (Response.ok sessionResponse); simpl; [|done].
  destruct (Response.json sessionResponse) as [sessionData|]; simpl; [|done].
  destruct (length _ =? 0); simpl; [by intros [= <- <-]|].
  match goal with
  | |- context [Script.revokeSessions ?nw ?b ?h ?ss ?n ?st] =>
      destruct (script_revokeSessions_effects b h ss n st)
        as (m & st'' & added & -> & Htrace & _ & Herrors)
  end.
  simpl in *. intros [= <- <-]. simpl. split; [done|]. split; [done|].
  rewrite Htrace. simpl. by rewrite !errorsLogged_app, Herrors.
Qed.

End ScriptEveryRun.

Section ScriptRuns.
Variable network : nat -> FetchOutcome.
Variable clock : State -> string.
Variable getBaseURL : Script.InvokeParams.t -> Context -> Result string.
Variable getAuthorizationHeader : Context -> Result string.
Variable params : Script.InvokeParams.t.
Variable context : Context.

Variables baseUrl authHeader : string.
Hypothesis HbaseUrl : getBaseURL params context = Return baseUrl.
Hypothesis HauthHeader : getAuthorizationHeader context = Return authHeader.

Let username : option string := Script.InvokeParams.username params.
Hypothesis Hwellformed : hasLoneSurrogate (str username) = false.

Let userQueryUrl : string :=
  baseUrl +:+ "/services/data/v61.0/query?q=SELECT+Id+FROM+User+WHERE+username+LIKE+'"
          +:+ encodeBytes (str username) +:+ "'+ORDER+BY+Id+ASC".

Ltac send_user_query :=
  unfold Script.invoke; rewrite HbaseUrl, HauthHeader;
  unfold encodeURIComponent; fold username; rewrite Hwellformed;
  unfold_monad; simpl.

(** X16: A query answered with a status that is not ok ends the run of the
    module script with "Failed to query user: ..." after one call, or with
    "Failed to query sessions: ..." after two; no delete is sent. *)
Theorem script_invoke_query_refused (refusal : Response.t) :
  Response.ok refusal = false ->
  (network 0 = Resolved refusal ->
   exists st',
     Script.invoke network clock getBaseURL getAuthorizationHeader params context init
     = (Throw (Error ("Failed to query user: " +:+ numStr (Response.status refusal)
                        +:+ " " +:+ Response.statusText refusal)), st')
     /\ httpCalls (trace st') = [("GET", userQueryUrl)])
  /\
  (forall userResponse userData first more,
     network 0 = Resolved userResponse ->
     Response.ok userResponse = true ->
     Response.json userResponse = Return userData ->
     records userData = Some (first :: more) ->
     network 1 = Resolved refusal ->
     exists st',
       Script.invoke network clock getBaseURL getAuthorizationHeader params context init
       = (Throw (Error ("Failed to query sessions: " +:+ numStr (Response.status refusal)
                          +:+ " " +:+ Response.statusText refusal)), st')
       /\ httpCalls (trace st')
          = [("GET", userQueryUrl);
             ("GET", baseUrl
                +:+ "/services/data/v61.0/query?q=SELECT+Id,UsersId+FROM+AuthSession+WHERE+UsersId='"
                +:+ Id first +:+ "'+AND+IsCurrent=false+ORDER+BY+Id+ASC")]).
Proof.
  intros Hrefused. split.
  - intros Huser. send_user_query. rewrite Huser. simpl. rewrite Hrefused. simpl.
    eexists. split; reflexivity.
  - intros userResponse userData first more Huser Hok Hjson Hrecords Hsession.
    send_user_query. rewrite Huser. simpl. rewrite Hok. simpl. rewrite Hjson. simpl.
    rewrite Hrecords. simpl. rewrite Hsession. simpl. rewrite Hrefused. simpl.
    eexists. split; reflexivity.
Qed.

Variable userResponse : Response.t.
Variable userData : QueryBody.
Variable first : SObject.
Variable more : list SObject.
Hypothesis Huser : network 0 = Resolved userResponse.
Hypothesis Huser_ok : Response.ok userResponse = true.
Hypothesis Huser_json : Response.json userResponse = Return userData.
Hypothesis Huser_records : records userData = Some (first :: more).

Variable sessionResponse : Response.t.
Variable sessionData : QueryBody.
Hypothesis Hsession : network 1 = Resolved sessionResponse.
Hypothesis Hsession_ok : Response.ok sessionResponse = true.
Hypothesis Hsession_json : Response.json sessionResponse = Return sessionData.

Let sessions : list SObject := default [] (records sessionData).

(** X17: A run of the module script that gets past both queries: each URL is
    the base URL followed by the endpoint, both queries and one DELETE per
    listed session are sent in that order, every session is either counted
    or warned about, and the record returned carries the base URL. *)
Theorem script_invoke_full_run :
  let outcomes := outcomesFrom network 2 (length sessions) in
  exists st',
    Script.invoke network clock getBaseURL getAuthorizationHeader params context init
      = (Return {| Script.InvokeResult.status := "success";
                   Script.InvokeResult.username := username;
                   Script.InvokeResult.userId := Id first;
                   Script.InvokeResult.sessionsRevoked :=
                     length (List.filter countsAsRevoked outcomes);
                   Script.InvokeResult.processed_at := clock st';
                   Script.InvokeResult.address := baseUrl |}, st')
    /\ httpCalls (trace st')
       = ("GET", userQueryUrl)
         :: ("GET", baseUrl
               +:+ "/services/data/v61.0/query?q=SELECT+Id,UsersId+FROM+AuthSession+WHERE+UsersId='"
               +:+ Id first +:+ "'+AND+IsCurrent=false+ORDER+BY+Id+ASC")
         :: map (fun session =>
                   ("DELETE", baseUrl +:+ "/services/data/v61.0/sobjects/AuthSession/"
                                +:+ Id session))
              sessions
    /\ length (List.filter countsAsRevoked outcomes) + length (warnings (trace st'))
       = length sessions.
Proof.
  intros outcomes.
  destruct (script_invoke_run network clock getBaseURL getAuthorizationHeader params
              context baseUrl authHeader HbaseUrl HauthHeader Hwellformed userResponse
              userData Huser Huser_ok Huser_json first more Huser_records
              sessionResponse sessionData Hsession Hsession_ok Hsession_json)
    as (st' & Hrun & Hwarn & Hcalls).
  fold username sessions outcomes in Hrun, Hwarn, Hcalls.
  exists st'. split; [exact Hrun|]. split; [exact Hcalls|].
  rewrite Hwarn, length_map, length_sessionsWhere by apply length_outcomesFrom.
  rewrite length_filter_negb. apply length_outcomesFrom.
Qed.

End ScriptRuns.

(** ** encodeURIComponent *)

Lemma percentDecode_unreserved (c : ascii) (s : string) :
  isUnreserved c = true -> percentDecode (String c s) = String c (percentDecode s).
Proof.
  intros Hc. simpl. destruct (Ascii.eqb_spec c "%") as [->|]; [discriminate | done].
Qed.

Lemma percentDecode_encoded_byte (c : ascii) (s : string) :
  percentDecode (percentEncodeByte c +:+ s) = String c (percentDecode s).
Proof.
  destruct c as [[] [] [] [] [] [] [] []]; reflexivity.
Qed.

Lemma percentDecode_encodeBytes_id (s : string) : percentDecode (encodeBytes s) = s.
Proof.
  induction s as [|c s IH]; [done|].
  cbn [encodeBytes]. destruct (isUnreserved c) eqn:Hc.
  - change (String c "" +:+ encodeBytes s) with (String c (encodeBytes s)).
    by rewrite percentDecode_unreserved, IH.
  - by rewrite percentDecode_encoded_byte, IH.
Qed.

(** Percent-decoding undoes [encodeURIComponent]: whenever the encoding
    succeeds, the text can be read back from it, byte for byte. *)
Theorem percentDecode_encodeURIComponent (s encoded : string) :
  encodeURIComponent s = Return encoded -> percentDecode encoded = s.
Proof.
  unfold encodeURIComponent. destruct (hasLoneSurrogate s); [done|].
  intros [= <-]. apply percentDecode_encodeBytes_id.
Qed.

(** Two texts with the same encoding are the same text. *)
Theorem encodeURIComponent_injective (a b encoded : string) :
  encodeURIComponent a = Return encoded ->
  encodeURIComponent b = Return encoded ->
  a = b.
Proof.
  unfold encodeURIComponent.
  destruct (hasLoneSurrogate a); [done|]. destruct (hasLoneSurrogate b); [done|].
  intros [= Ha] [= Hb].
  rewrite <- (percentDecode_encodeBytes_id a), <- (percentDecode_encodeBytes_id b).
  by rewrite Ha, Hb.
Qed.

Section ScriptUserQuery.
Variable network : nat -> FetchOutcome.
Variable clock : State -> string.
Variable getBaseURL : Script.InvokeParams.t -> Context -> Result string.
Variable getAuthorizationHeader : Context -> Result string.
Variable params : Script.InvokeParams.t.
Variable context : Context.
Variables baseUrl authHeader : string.

(** X19: Once URL and credentials are resolved, the first call of the module
    script is the user query, whatever the network does afterwards; the
    encoded username in it contains no space and none of & # + = ? / < >,
    so it cannot end the q parameter or start another one. *)
Theorem script_user_query_parameter_intact :
  getBaseURL params context = Return baseUrl ->
  getAuthorizationHeader context = Return authHeader ->
  hasLoneSurrogate (str (Script.InvokeParams.username params)) = false ->
  exists encoded later,
    encodeURIComponent (str (Script.InvokeParams.username params)) = Return encoded
    /\ httpCalls (trace (Script.invoke network clock getBaseURL getAuthorizationHeader
                           params context init).2)
       = ("GET", baseUrl
            +:+ "/services/data/v61.0/query?q=SELECT+Id+FROM+User+WHERE+username+LIKE+'"
            +:+ encoded +:+ "'+ORDER+BY+Id+ASC") :: later
    /\ forall c, In c (list_ascii_of_string encoded) ->
         ~ In c [" "; "&"; "#"; "+"; "="; "?"; "/"; "<"; ">"]%char.
Proof.
  intros HbaseUrl HauthHeader Hwellformed.
  destruct (script_invoke_user_query_url network clock getBaseURL getAuthorizationHeader
              params context baseUrl authHeader HbaseUrl HauthHeader Hwellformed)
    as (later & Hcalls).
  exists (encodeBytes (str (Script.InvokeParams.username params))), later.
  split; [unfold encodeURIComponent; by rewrite Hwellformed|]. split; [exact Hcalls|].
  intros c Hc Hbad.
  pose proof (encodeBytes_alphabet (str (Script.InvokeParams.username params))) as Halpha.
  rewrite Forall_forall in Halpha. apply list_elem_of_In, Halpha in Hc.
  simpl in Hbad.
  destruct Hc as [Hc | ->];
    repeat (destruct Hbad as [Heq | Hbad];
            [try (subst c; vm_compute in Hc); discriminate|]);
    done.
Qed.

End ScriptUserQuery.

(** ** Concrete runs for the further properties *)

Lemma dist_invoke_malformed_username_witness :
  Dist.invoke offlineNetwork originPlusPath fixedClock
    (distParams (Some loneSurrogateName)) distContext init
  = (Throw {| name := "URIError"; message := "URI malformed" |},
     {| fetches := 0;
        trace := [console_log "Starting Salesforce session revocation";
                  console_log ("Processing username: " +:+ loneSurrogateName);
                  console_log "Using API version: v61.0";
                  console_error ("Failed to revoke sessions for user " +:+ loneSurrogateName
                                   +:+ ": URI malformed")] |}).
Proof.
  exact (dist_invoke_malformed_username offlineNetwork originPlusPath fixedClock
           (distParams (Some loneSurrogateName)) distContext
           loneSurrogateName "test-access-token-123456" "https://mycompany.salesforce.com"
           eq_refl eq_refl eq_refl eq_refl).
Defined.

Lemma dist_invoke_user_query_refused_witness :
  exists st',
    Dist.invoke refusedUserNetwork originPlusPath fixedClock
      (distParams (Some "test@example.com")) distContext init
    = (Throw (Error "Failed to query user: 500 Internal Server Error"), st')
    /\ httpCalls (trace st')
       = [("GET", "https://mycompany.salesforce.com/services/data/v61.0/query?q=SELECT+Id+FROM+User+WHERE+username+LIKE+'test%40example.com'+ORDER+BY+Id+ASC")]
    /\ errorsLogged (trace st')
       = ["Failed to revoke sessions for user test@example.com: Failed to query user: 500 Internal Server Error"].
Proof.
  exact (dist_invoke_user_query_refused refusedUserNetwork originPlusPath fixedClock
           (distParams (Some "test@example.com")) distContext
           "test@example.com" "test-access-token-123456" "https://mycompany.salesforce.com"
           eq_refl eq_refl eq_refl eq_refl _ eq_refl _ eq_refl eq_refl).
Defined.

Lemma dist_invoke_user_query_fault_witness :
  exists st',
    Dist.invoke offlineNetwork originPlusPath fixedClock
      (distParams (Some "test@example.com")) distContext init
    = (Throw {| name := "TypeError"; message := "fetch failed" |}, st')
    /\ httpCalls (trace st')
       = [("GET", "https://mycompany.salesforce.com/services/data/v61.0/query?q=SELECT+Id+FROM+User+WHERE+username+LIKE+'test%40example.com'+ORDER+BY+Id+ASC")]
    /\ errorsLogged (trace st')
       = ["Failed to revoke sessions for user test@example.com: fetch failed"].
Proof.
  exact (dist_invoke_user_query_fault offlineNetwork originPlusPath fixedClock
           (distParams (Some "test@example.com")) distContext
           "test@example.com" "test-access-token-123456" "https://mycompany.salesforce.com"
           eq_refl eq_refl eq_refl eq_refl _ eq_refl _ (or_introl eq_refl)).
Defined.

Lemma dist_invoke_session_query_refused_witness :
  exists st',
    Dist.invoke refusedSessionsNetwork originPlusPath fixedClock
      (distParams (Some "test@example.com")) distContext init
    = (Throw (Error "Failed to query sessions: 403 Forbidden"), st')
    /\ httpCalls (trace st')
       = [("GET", "https://mycompany.salesforce.com/services/data/v61.0/query?q=SELECT+Id+FROM+User+WHERE+username+LIKE+'test%40example.com'+ORDER+BY+Id+ASC");
          ("GET", "https://mycompany.salesforce.com/services/data/v61.0/query?q=SELECT+Id,UsersId+FROM+AuthSession+WHERE+UsersId='user123'+AND+IsCurrent=false+ORDER+BY+Id+ASC")].
Proof.
  exact (dist_invoke_session_query_refused refusedSessionsNetwork originPlusPath fixedClock
           (distParams (Some "test@example.com")) distContext
           "test@example.com" "test-access-token-123456" "https://mycompany.salesforce.com"
           eq_refl eq_refl eq_refl eq_refl _ eq_refl
           _ _ user123 [] eq_refl eq_refl eq_refl eq_refl _ eq_refl _ eq_refl eq_refl).
Defined.

Lemma dist_invoke_result_accounts_witness :
  exists r st',
    Dist.invoke mixedNetwork originPlusPath fixedClock
      (distParams (Some "test.user@example.com")) distContext init = (Return r, st')
    /\ Dist.InvokeParams.username (distParams (Some "test.user@example.com"))
       = Some (Dist.InvokeResult.username r)
    /\ Dist.InvokeResult.sessionsRevoked r + 2 <= fetches st'
    /\ errorsLogged (trace st') = [].
Proof.
  eexists _, _. split; [vm_compute; reflexivity|].
  eapply (dist_invoke_result_accounts mixedNetwork originPlusPath fixedClock
            (distParams (Some "test.user@example.com")) distContext).
  vm_compute. reflexivity.
Defined.

Lemma dist_invoke_failure_is_logged_witness :
  exists earlier,
    trace (Dist.invoke noUserNetwork originPlusPath fixedClock
             (distParams (Some "nobody@example.com")) distContext init).2
    = earlier ++ [console_error "Failed to revoke sessions for user nobody@example.com: User not found: nobody@example.com"].
Proof.
  eapply (dist_invoke_failure_is_logged noUserNetwork originPlusPath fixedClock
            (distParams (Some "nobody@example.com")) distContext "nobody@example.com" init
            (Error "User not found: nobody@example.com")).
  - reflexivity.
  - eexists. reflexivity.
  - eexists. reflexivity.
  - vm_compute. reflexivity.
Defined.

Lemma dist_invoke_validation_order_witness :
  Dist.invoke mixedNetwork originPlusPath fixedClock (distParams None) emptyContext init
  = (Throw (Error "username is required"),
     {| fetches := 0; trace := [console_log "Starting Salesforce session revocation"] |})
  /\ Dist.invoke mixedNetwork originPlusPath fixedClock
       (distParams (Some "test@example.com")) emptyContext init
     = (Throw (Error "SALESFORCE_ACCESS_TOKEN secret is required"),
        {| fetches := 0; trace := [console_log "Starting Salesforce session revocation"] |})
  /\ Dist.invoke mixedNetwork originPlusPath fixedClock
       (distParams (Some "test@example.com"))
       {| secrets := secrets distContext; environment := ∅ |} init
     = (Throw (Error "SALESFORCE_INSTANCE_URL environment variable is required"),
        {| fetches := 0; trace := [console_log "Starting Salesforce session revocation"] |}).
Proof.
  split; [|split].
  - apply (proj1 (dist_invoke_validation_order mixedNetwork originPlusPath fixedClock
                    (distParams None) emptyContext)).
    reflexivity.
  - apply (proj1 (proj2 (dist_invoke_validation_order mixedNetwork originPlusPath fixedClock
                           (distParams (Some "test@example.com")) emptyContext))).
    + eexists. reflexivity.
    + reflexivity.
  - apply (proj2 (proj2 (dist_invoke_validation_order mixedNetwork originPlusPath fixedClock
                           (distParams (Some "test@example.com"))
                           {| secrets := secrets distContext; environment := ∅ |}))).
    + eexists. reflexivity.
    + eexists. reflexivity.
    + reflexivity.
Defined.

Lemma dist_validation_error_is_fatal_witness :
  exists e st',
    Dist.invoke mixedNetwork originPlusPath fixedClock
      (distParams (Some "test@example.com")) emptyContext init = (Throw e, st')
    /\ forall username context' st,
         (Dist.error {| Dist.ErrorParams.error := e;
                        Dist.ErrorParams.username := username |} context' st).1
         = Throw e.
Proof.
  apply (dist_validation_error_is_fatal mixedNetwork originPlusPath fixedClock
           (distParams (Some "test@example.com")) emptyContext).
  right. left. reflexivity.
Defined.

Lemma dist_rate_limited_query_is_retried_witness :
  exists e st',
    Dist.invoke rateLimitedNetwork originPlusPath fixedClock
      (distParams (Some "test@example.com")) distContext init = (Throw e, st')
    /\ forall context' st,
         Dist.error {| Dist.ErrorParams.error := e;
                       Dist.ErrorParams.username := Some "test@example.com" |} context' st
         = (Return {| Dist.ErrorResult.status := "retry_requested" |},
            {| fetches := fetches st;
               trace := trace st
                 ++ [console_error ("Session revocation encountered error for user "
                                      +:+ "test@example.com" +:+ ": " +:+ message e);
                     console_log "Detected retryable error, waiting before retry...";
                     setTimeout 5000] |}).
Proof.
  apply (dist_rate_limited_query_is_retried rateLimitedNetwork originPlusPath fixedClock
           (distParams (Some "test@example.com")) distContext
           "test@example.com" "test-access-token-123456" "https://mycompany.salesforce.com"
           eq_refl eq_refl eq_refl eq_refl
           (fun endpoint => "https://mycompany.salesforce.com" +:+ endpoint)
           (fun endpoint => eq_refl) _ eq_refl eq_refl).
  simpl. tauto.
Defined.

Lemma dist_invoke_calls_in_order_witness :
  exists r st',
    Dist.invoke faultyDeleteNetwork originPlusPath fixedClock
      {| Dist.InvokeParams.username := Some "test.user@example.com";
         Dist.InvokeParams.apiVersion := Some "v60.0" |} distContext init = (Return r, st')
    /\ httpCalls (trace st')
       = [("GET", "https://mycompany.salesforce.com/services/data/v60.0/query?q=SELECT+Id+FROM+User+WHERE+username+LIKE+'test.user%40example.com'+ORDER+BY+Id+ASC");
          ("GET", "https://mycompany.salesforce.com/services/data/v60.0/query?q=SELECT+Id,UsersId+FROM+AuthSession+WHERE+UsersId='user123'+AND+IsCurrent=false+ORDER+BY+Id+ASC");
          ("DELETE", "https://mycompany.salesforce.com/services/data/v60.0/sobjects/AuthSession/session1");
          ("DELETE", "https://mycompany.salesforce.com/services/data/v60.0/sobjects/AuthSession/session2");
          ("DELETE", "https://mycompany.salesforce.com/services/data/v60.0/sobjects/AuthSession/session3")].
Proof.
  exact (dist_invoke_calls_in_order faultyDeleteNetwork originPlusPath fixedClock
           {| Dist.InvokeParams.username := Some "test.user@example.com";
              Dist.InvokeParams.apiVersion := Some "v60.0" |} distContext
           "test.user@example.com" "test-access-token-123456"
           "https://mycompany.salesforce.com"
           eq_refl eq_refl eq_refl eq_refl
           (fun endpoint => "https://mycompany.salesforce.com" +:+ endpoint)
           (fun endpoint => eq_refl)
           _ _ user123 [] eq_refl eq_refl eq_refl eq_refl
           _ _ eq_refl eq_refl eq_refl).
Defined.

Lemma dist_invoke_sessions_accounted_witness :
  exists r st',
    Dist.invoke faultyDeleteNetwork originPlusPath fixedClock
      (distParams (Some "test.user@example.com")) distContext init = (Return r, st')
    /\ Dist.InvokeResult.sessionsRevoked r = 2
    /\ Forall2 (fun warning so => includes warning (Id so.1) = true)
         (warnings (trace st'))
         [({| Id := "session2" |},
           Rejected {| name := "TypeError"; message := "fetch failed" |})]
    /\ Dist.InvokeResult.sessionsRevoked r + length (warnings (trace st')) = 3.
Proof.
  exact (dist_invoke_sessions_accounted faultyDeleteNetwork originPlusPath fixedClock
           (distParams (Some "test.user@example.com")) distContext
           "test.user@example.com" "test-access-token-123456"
           "https://mycompany.salesforce.com"
           eq_refl eq_refl eq_refl eq_refl
           (fun endpoint => "https://mycompany.salesforce.com" +:+ endpoint)
           (fun endpoint => eq_refl)
           _ _ user123 [] eq_refl eq_refl eq_refl eq_refl
           _ _ eq_refl eq_refl eq_refl).
Defined.

Lemma script_invoke_calls_authorized_witness :
  Forall (getOrDeleteWith (scriptHeaders "Bearer test-access-token-123456"))
    (trace (Script.invoke mixedNetwork fixedClock bearerGetBaseURL
              bearerGetAuthorizationHeader (scriptParams (Some "test.user@example.com"))
              scriptContext init).2).
Proof.
  exact (script_invoke_calls_authorized mixedNetwork fixedClock bearerGetBaseURL
           bearerGetAuthorizationHeader (scriptParams (Some "test.user@example.com"))
           scriptContext "Bearer test-access-token-123456" eq_refl).
Defined.

Lemma script_invoke_result_echo_witness :
  exists r st',
    Script.invoke noSessionsNetwork fixedClock bearerGetBaseURL bearerGetAuthorizationHeader
      (scriptParams (Some "test.user@example.com")) scriptContext init = (Return r, st')
    /\ Script.InvokeResult.username r = Some "test.user@example.com"
    /\ bearerGetBaseURL (scriptParams (Some "test.user@example.com")) scriptContext
       = Return (Script.InvokeResult.address r)
    /\ errorsLogged (trace st') = [].
Proof.
  eexists _, _. split; [vm_compute; reflexivity|].
  eapply (script_invoke_result_echo noSessionsNetwork fixedClock bearerGetBaseURL
            bearerGetAuthorizationHeader (scriptParams (Some "test.user@example.com"))
            scriptContext).
  vm_compute. reflexivity.
Defined.

Lemma script_invoke_query_refused_witness :
  (exists st',
     Script.invoke refusedUserNetwork fixedClock bearerGetBaseURL bearerGetAuthorizationHeader
       (scriptParams (Some "test@example.com")) scriptContext init
     = (Throw (Error "Failed to query user: 500 Internal Server Error"), st')
     /\ httpCalls (trace st')
        = [("GET", "https://mycompany.salesforce.com/services/data/v61.0/query?q=SELECT+Id+FROM+User+WHERE+username+LIKE+'test%40example.com'+ORDER+BY+Id+ASC")])
  /\
  (exists st',
     Script.invoke refusedSessionsNetwork fixedClock bearerGetBaseURL
       bearerGetAuthorizationHeader (scriptParams (Some "test@example.com"))
       scriptContext init
     = (Throw (Error "Failed to query sessions: 403 Forbidden"), st')
     /\ httpCalls (trace st')
        = [("GET", "https://mycompany.salesforce.com/services/data/v61.0/query?q=SELECT+Id+FROM+User+WHERE+username+LIKE+'test%40example.com'+ORDER+BY+Id+ASC");
           ("GET", "https://mycompany.salesforce.com/services/data/v61.0/query?q=SELECT+Id,UsersId+FROM+AuthSession+WHERE+UsersId='user123'+AND+IsCurrent=false+ORDER+BY+Id+ASC")]).
Proof.
  split.
  - exact (proj1 (script_invoke_query_refused refusedUserNetwork fixedClock bearerGetBaseURL
                    bearerGetAuthorizationHeader (scriptParams (Some "test@example.com"))
                    scriptContext _ _ eq_refl eq_refl eq_refl
                    (responseWith 500 "Internal Server Error") eq_refl) eq_refl).
  - exact (proj2 (script_invoke_query_refused refusedSessionsNetwork fixedClock
                    bearerGetBaseURL bearerGetAuthorizationHeader
                    (scriptParams (Some "test@example.com"))
                    scriptContext _ _ eq_refl eq_refl eq_refl
                    (responseWith 403 "Forbidden") eq_refl)
             _ _ user123 [] eq_refl eq_refl eq_refl eq_refl eq_refl).
Defined.

Lemma script_invoke_full_run_witness :
  exists st',
    Script.invoke faultyDeleteNetwork fixedClock bearerGetBaseURL bearerGetAuthorizationHeader
      (scriptParams (Some "test.user@example.com")) scriptContext init
      = (Return {| Script.InvokeResult.status := "success";
                   Script.InvokeResult.username := Some "test.user@example.com";
                   Script.InvokeResult.userId := "user123";
                   Script.InvokeResult.sessionsRevoked := 2;
                   Script.InvokeResult.processed_at := fixedClock st';
                   Script.InvokeResult.address := "https://mycompany.salesforce.com" |}, st')
    /\ httpCalls (trace st')
       = [("GET", "https://mycompany.salesforce.com/services/data/v61.0/query?q=SELECT+Id+FROM+User+WHERE+username+LIKE+'test.user%40example.com'+ORDER+BY+Id+ASC");
          ("GET", "https://mycompany.salesforce.com/services/data/v61.0/query?q=SELECT+Id,UsersId+FROM+AuthSession+WHERE+UsersId='user123'+AND+IsCurrent=false+ORDER+BY+Id+ASC");
          ("DELETE", "https://mycompany.salesforce.com/services/data/v61.0/sobjects/AuthSession/session1");
          ("DELETE", "https://mycompany.salesforce.com/services/data/v61.0/sobjects/AuthSession/session2");
          ("DELETE", "https://mycompany.salesforce.com/services/data/v61.0/sobjects/AuthSession/session3")]
    /\ 2 + length (warnings (trace st')) = 3.
Proof.
  exact (script_invoke_full_run faultyDeleteNetwork fixedClock bearerGetBaseURL
           bearerGetAuthorizationHeader (scriptParams (Some "test.user@example.com"))
           scriptContext _ _ eq_refl eq_refl eq_refl
           _ _ user123 [] eq_refl eq_refl eq_refl eq_refl
           _ _ eq_refl eq_refl eq_refl).
Defined.

Lemma percentDecode_encodeURIComponent_witness :
  percentDecode "test%2Buser%40example.com" = "test+user@example.com".
Proof.
  exact (percentDecode_encodeURIComponent "test+user@example.com"
           "test%2Buser%40example.com" eq_refl).
Defined.

Lemma encodeURIComponent_injective_witness :
  "a b" = String "a" (String " " "b").
Proof.
  exact (encodeURIComponent_injective "a b" (String "a" (String " " "b")) "a%20b"
           eq_refl eq_refl).
Defined.

Lemma script_user_query_parameter_intact_witness :
  exists encoded later,
    encodeURIComponent "a&b=c#d" = Return encoded
    /\ httpCalls (trace (Script.invoke noUserNetwork fixedClock bearerGetBaseURL
                           bearerGetAuthorizationHeader (scriptParams (Some "a&b=c#d"))
                           scriptContext init).2)
       = ("GET", "https://mycompany.salesforce.com"
            +:+ "/services/data/v61.0/query?q=SELECT+Id+FROM+User+WHERE+username+LIKE+'"
            +:+ encoded +:+ "'+ORDER+BY+Id+ASC") :: later
    /\ forall c, In c (list_ascii_of_string encoded) ->
         ~ In c [" "; "&"; "#"; "+"; "="; "?"; "/"; "<"; ">"]%char.
Proof.
  exact (script_user_query_parameter_intact noUserNetwork fixedClock bearerGetBaseURL
           bearerGetAuthorizationHeader (scriptParams (Some "a&b=c#d")) scriptContext
           "https://mycompany.salesforce.com" "Bearer test-access-token-123456"
           eq_refl eq_refl eq_refl).
Defined.

(** ** The user query and the username in it *)

Lemma list_ascii_of_string_app (a b : string) :
  list_ascii_of_string (a +:+ b) = list_ascii_of_string a ++ list_ascii_of_string b.
Proof.
  induction a as [|c a IH]; [done|].
  change (c :: list_ascii_of_string (a +:+ b)
          = c :: list_ascii_of_string a ++ list_ascii_of_string b).
  by rewrite IH.
Qed.

Lemma list_ascii_of_string_inj (a b : string) :
  list_ascii_of_string a = list_ascii_of_string b -> a = b.
Proof.
  intros Heq.
  rewrite <- (string_of_list_ascii_of_string a), <- (string_of_list_ascii_of_string b).
  by rewrite Heq.
Qed.

Lemma append_cancel_l (p x y : string) : p +:+ x = p +:+ y -> x = y.
Proof.
  intros Heq. apply list_ascii_of_string_inj.
  apply (f_equal list_ascii_of_string) in Heq.
  rewrite !list_ascii_of_string_app in Heq. by apply app_inv_head in Heq.
Qed.

Lemma append_cancel_r (x y s : string) : x +:+ s = y +:+ s -> x = y.
Proof.
  intros Heq. apply list_ascii_of_string_inj.
  apply (f_equal list_ascii_of_string) in Heq.
  rewrite !list_ascii_of_string_app in Heq. by apply app_inv_tail in Heq.
Qed.

Section ScriptQueryIdentifiesUsername.
Variables network network' : nat -> FetchOutcome.
Variable clock : State -> string.
Variable getBaseURL : Script.InvokeParams.t -> Context -> Result string.
Variable getAuthorizationHeader : Context -> Result string.
Variables params params' : Script.InvokeParams.t.
Variable context : Context.
Variables baseUrl authHeader : string.

(** X18: for one and the same resolved base URL, the URL of the user query
    that the module script sends determines the username text that was
    put into it: two invocations whose first HTTP calls are equal were
    given the same username, as printed ([undefined] prints as the nine
    letters), whatever the network answers in either run.  This is about
    the text of the request, not about the users the query matches. *)
Theorem script_user_query_identifies_username :
  getBaseURL params context = Return baseUrl ->
  getBaseURL params' context = Return baseUrl ->
  getAuthorizationHeader context = Return authHeader ->
  hasLoneSurrogate (str (Script.InvokeParams.username params)) = false ->
  hasLoneSurrogate (str (Script.InvokeParams.username params')) = false ->
  head (httpCalls (trace (Script.invoke network clock getBaseURL getAuthorizationHeader
                            params context init).2))
  = head (httpCalls (trace (Script.invoke network' clock getBaseURL getAuthorizationHeader
                              params' context init).2)) ->
  str (Script.InvokeParams.username params) = str (Script.InvokeParams.username params').
Proof.
  intros Hbase Hbase' Hauth Hwf Hwf' Hsame.
  destruct (script_invoke_user_query_url network clock getBaseURL getAuthorizationHeader
              params context baseUrl authHeader Hbase Hauth Hwf) as (later & Hcalls).
  destruct (script_invoke_user_query_url network' clock getBaseURL getAuthorizationHeader
              params' context baseUrl authHeader Hbase' Hauth Hwf') as (later' & Hcalls').
  rewrite Hcalls, Hcalls' in Hsame. simpl in Hsame.
  injection Hsame as Hurl.
  apply append_cancel_l, append_cancel_l, append_cancel_r in Hurl.
  rewrite <- (percentDecode_encodeBytes_id (str (Script.InvokeParams.username params))).
  rewrite <- (percentDecode_encodeBytes_id (str (Script.InvokeParams.username params'))).
  by rewrite Hurl.
Qed.

End ScriptQueryIdentifiesUsername.

(** No username and the username "undefined" send the same user query, and
    are the same text once printed. *)
Lemma script_user_query_identifies_username_witness :
  str (Script.InvokeParams.username (scriptParams None))
  = str (Script.InvokeParams.username (scriptParams (Some "undefined"))).
Proof.
  exact (script_user_query_identifies_username noUserNetwork offlineNetwork fixedClock
           bearerGetBaseURL bearerGetAuthorizationHeader
           (scriptParams None) (scriptParams (Some "undefined")) scriptContext
           "https://mycompany.salesforce.com" "Bearer test-access-token-123456"
           eq_refl eq_refl eq_refl eq_refl eq_refl eq_refl).
Defined.
